(** * finance-sim: the projection and transfer-advisory engine

    A shallow embedding of [src/simulator.py]
    ([run_simulation_engine], [calculate_intelligent_transfer],
    [generate_simulation_report]) together with the parts of the Python
    and pandas libraries those functions rely on.

    Modelling conventions.
    - Money is an exact rational ([Q]): the specification's data model
      speaks of exact decimals.  Binary rounding of Python floats, NaN and
      the infinities are outside the model, with one exception written out
      below: the NaN that [Series.min()] yields on an empty series.
    - A [datetime.date] is represented by its proleptic Gregorian ordinal
      ([date.toordinal()]); the calendar fields are recovered with
      CPython's own [_ord2ymd].  The representable range of the libraries
      (MINYEAR..MAXYEAR, the bounds of [pd.Timestamp]) is not modelled.
    - DataFrames of transactions are mutable Python objects: they live in
      a store and are passed around by reference.  The store is only ever
      extended by allocation or updated by column assignment, as in the
      source.
    - The parsers behind [pd.to_numeric] and [pd.to_datetime] are
      parameters of the development: nothing is assumed about them. *)

From Stdlib Require Import ZArith QArith Qminmax Lqa Lia Bool Ascii String
  DecimalString.
From stdpp Require Import base list.

Local Open Scope Z_scope.

(* ===================================================================== *)
(** ** Python's [datetime.date] *)
(* ===================================================================== *)

Module Calendar.

(** A date, held as [date.toordinal()]: day 1 is 0001-01-01. *)
Record date : Type := fromordinal { toordinal : Z }.

Definition date_eqb (a b : date) : bool := toordinal a =? toordinal b.

(** [d + timedelta(days=k)] *)
Definition add_days (d : date) (k : Z) : date :=
  fromordinal (toordinal d + k).

Definition _DI400Y : Z := 146097.
Definition _DI100Y : Z := 36524.
Definition _DI4Y : Z := 1461.

Definition _DAYS_IN_MONTH (m : Z) : Z :=
  match m with
  | 1 => 31 | 2 => 28 | 3 => 31 | 4 => 30 | 5 => 31 | 6 => 30
  | 7 => 31 | 8 => 31 | 9 => 30 | 10 => 31 | 11 => 30 | 12 => 31
  | _ => -1
  end.

Definition _DAYS_BEFORE_MONTH (m : Z) : Z :=
  match m with
  | 1 => 0 | 2 => 31 | 3 => 59 | 4 => 90 | 5 => 120 | 6 => 151
  | 7 => 181 | 8 => 212 | 9 => 243 | 10 => 273 | 11 => 304 | 12 => 334
  | _ => -1
  end.

Definition _is_leap (year : Z) : bool :=
  (year mod 4 =? 0) && (negb (year mod 100 =? 0) || (year mod 400 =? 0)).

Definition _days_before_year (year : Z) : Z :=
  let y := year - 1 in y * 365 + y / 4 - y / 100 + y / 400.

Definition _days_before_month (year month : Z) : Z :=
  _DAYS_BEFORE_MONTH month
  + (if (2 <? month) && _is_leap year then 1 else 0).

Definition _ymd2ord (year month day : Z) : Z :=
  _days_before_year year + _days_before_month year month + day.

(** CPython's [_ord2ymd]: ordinal to (year, month, day). *)
Definition _ord2ymd (n : Z) : Z * Z * Z :=
  let n := n - 1 in
  let n400 := n / _DI400Y in
  let n := n mod _DI400Y in
  let year := n400 * 400 + 1 in
  let n100 := n / _DI100Y in
  let n := n mod _DI100Y in
  let n4 := n / _DI4Y in
  let n := n mod _DI4Y in
  let n1 := n / 365 in
  let n := n mod 365 in
  let year := year + (n100 * 100 + n4 * 4 + n1) in
  if (n1 =? 4) || (n100 =? 4) then (year - 1, 12, 31)
  else
    let leapyear := (n1 =? 3) && (negb (n4 =? 24) || (n100 =? 3)) in
    let month := Z.shiftr (n + 50) 5 in
    let preceding :=
      _DAYS_BEFORE_MONTH month
      + (if (2 <? month) && leapyear then 1 else 0) in
    if n <? preceding then
      let month := month - 1 in
      let preceding :=
        preceding
        - (_DAYS_IN_MONTH month
           + (if (month =? 2) && leapyear then 1 else 0)) in
      (year, month, n - preceding + 1)
    else (year, month, n - preceding + 1).

(** [date(year, month, day)] *)
Definition mkdate (year month day : Z) : date :=
  fromordinal (_ymd2ord year month day).

Definition year (d : date) : Z := fst (fst (_ord2ymd (toordinal d))).
Definition month (d : date) : Z := snd (fst (_ord2ymd (toordinal d))).
Definition day (d : date) : Z := snd (_ord2ymd (toordinal d)).

End Calendar.

(* ===================================================================== *)
(** ** Numbers and their formatting *)
(* ===================================================================== *)

Module Numeric.

Local Open Scope Q_scope.

(** [a < b] and [a <= b] on numbers, as booleans. *)
Definition Qltb (a b : Q) : bool := negb (Qle_bool b a).
Definition Qleb (a b : Q) : bool := Qle_bool a b.

(** Python's built-in [max(a, b)]: the second argument is returned only
    when it is strictly greater than the first. *)
Definition pymax (a b : Q) : Q := if Qltb a b then b else a.

(** [Series.sum()] of a numeric column. *)
Definition Series_sum (s : list Q) : Q := fold_left Qplus s 0.

(** [Series.min()] of a numeric column; [None] stands for the NaN that
    pandas returns on an empty series. *)
Fixpoint min_from (m : Q) (s : list Q) : Q :=
  match s with
  | [] => m
  | x :: s' => min_from (if Qltb x m then x else m) s'
  end.

Definition Series_min (s : list Q) : option Q :=
  match s with
  | [] => None
  | x :: s' => Some (min_from x s')
  end.

(** Rounding to the nearest integer, ties to even: the rounding that
    the [.2f] conversion applies to the scaled value. *)
Definition round_half_even (q : Q) : Z :=
  let n := Qnum q in
  let d := Zpos (Qden q) in
  let fl := (n / d)%Z in
  let r := (n mod d)%Z in
  if (2 * r <? d)%Z then fl
  else if (d <? 2 * r)%Z then (fl + 1)%Z
  else if Z.even fl then fl else (fl + 1)%Z.

Definition digit_char (k : Z) : ascii :=
  match k with
  | 0%Z => "0" | 1%Z => "1" | 2%Z => "2" | 3%Z => "3" | 4%Z => "4"
  | 5%Z => "5" | 6%Z => "6" | 7%Z => "7" | 8%Z => "8" | _ => "9"
  end%char.

(** Decimal digits of a natural number, most significant first. *)
Definition decimal_string (n : Z) : string :=
  DecimalString.NilZero.string_of_uint (N.to_uint (Z.to_N n)).

(** [f"{q:.2f}"] *)
Definition format_2f (q : Q) : string :=
  let cents := Z.abs (round_half_even (q * 100)) in
  ((if Qltb q 0 then "-" else "")
   ++ decimal_string (cents / 100)
   ++ "."
   ++ String (digit_char ((cents / 10) mod 10))
        (String (digit_char (cents mod 10)) EmptyString))%string.

End Numeric.

(* ===================================================================== *)
(** ** The pandas objects the simulator works on *)
(* ===================================================================== *)

Module Pandas.
Import Calendar Numeric.

(** [pd.Timestamp]: a calendar day and the time elapsed since midnight. *)
Record Timestamp : Type := mkTimestamp { ts_date : date; ts_nanos : Z }.

(** [pd.Timestamp(d)] for a [datetime.date]: midnight of that day. *)
Definition Timestamp_of_date (d : date) : Timestamp :=
  {| ts_date := d; ts_nanos := 0 |}.

(** A cell of the ['date'] column: a raw string (object dtype) or a
    timestamp (datetime64 dtype). *)
Inductive DateCell : Type :=
| DStr (s : string)
| DStamp (t : Timestamp).

(** A cell of the ['amount'] column: a raw string, as [load_ledger]
    delivers it, or a number. *)
Inductive AmountCell : Type :=
| AStr (s : string)
| ANum (q : Q).

(** One row of the transaction ledger. *)
Record Row : Type := mkRow {
  tx_date : DateCell;
  tx_amount : AmountCell;
  tx_description : string;
  tx_category : string;
  tx_forecast : string
}.

(** The transaction DataFrame, row by row in index order.  The dtype of
    a column is read off its cells; an empty column counts as
    datetime64, as in the frames the callers build. *)
Definition DataFrame : Type := list Row.

Inductive Exn : Type :=
| AttributeError
| ValueError
| TypeError
| IndexError.

(** *** Column operations *)

Definition is_stamp (c : DateCell) : bool :=
  match c with DStamp _ => true | DStr _ => false end.

(** [pd.api.types.is_datetime64_any_dtype(col)] *)
Definition is_datetime64_any_dtype (col : list DateCell) : bool :=
  forallb is_stamp col.

(** [col.dt.date]: only a datetime64 column has the [.dt] accessor. *)
Fixpoint dt_date (col : list DateCell) : Exn + list date :=
  match col with
  | [] => inr []
  | DStamp t :: col' =>
      match dt_date col' with
      | inr ds => inr (ts_date t :: ds)
      | inl e => inl e
      end
  | DStr _ :: _ => inl AttributeError
  end.

(** [pd.to_datetime(col)], over a parser for the string cells. *)
Fixpoint to_datetime (parse : string -> option Timestamp)
    (col : list DateCell) : Exn + list Timestamp :=
  match col with
  | [] => inr []
  | c :: col' =>
      match (match c with DStamp t => Some t | DStr s => parse s end) with
      | None => inl ValueError
      | Some t =>
          match to_datetime parse col' with
          | inr ts => inr (t :: ts)
          | inl e => inl e
          end
      end
  end.

(** [pd.to_numeric(col)], over a parser for the string cells. *)
Fixpoint to_numeric (parse : string -> option Q)
    (col : list AmountCell) : Exn + list Q :=
  match col with
  | [] => inr []
  | c :: col' =>
      match (match c with ANum q => Some q | AStr s => parse s end) with
      | None => inl ValueError
      | Some q =>
          match to_numeric parse col' with
          | inr qs => inr (q :: qs)
          | inl e => inl e
          end
      end
  end.

(** The values of a float column; arithmetic on a column that still
    holds strings is a [TypeError]. *)
Fixpoint float_values (col : list AmountCell) : Exn + list Q :=
  match col with
  | [] => inr []
  | ANum q :: col' =>
      match float_values col' with
      | inr qs => inr (q :: qs)
      | inl e => inl e
      end
  | AStr _ :: _ => inl TypeError
  end.

(** [df[mask]]: the rows whose mask entry is [True], in index order. *)
Fixpoint getitem_mask (df : DataFrame) (mask : list bool) : DataFrame :=
  match df, mask with
  | r :: df', b :: mask' =>
      if b then r :: getitem_mask df' mask' else getitem_mask df' mask'
  | _, _ => []
  end.

Definition set_amount (r : Row) (q : Q) : Row :=
  {| tx_date := tx_date r; tx_amount := ANum q;
     tx_description := tx_description r; tx_category := tx_category r;
     tx_forecast := tx_forecast r |}.

Definition set_date (r : Row) (t : Timestamp) : Row :=
  {| tx_date := DStamp t; tx_amount := tx_amount r;
     tx_description := tx_description r; tx_category := tx_category r;
     tx_forecast := tx_forecast r |}.

(** [df['amount'] = col] and [df['date'] = col], for a column as long as
    the frame (which is what the simulator assigns). *)
Definition with_amount (df : DataFrame) (col : list Q) : DataFrame :=
  zip_with set_amount df col.

Definition with_date (df : DataFrame) (col : list Timestamp) : DataFrame :=
  zip_with set_date df col.

(** [df.empty] *)
Definition empty (df : DataFrame) : bool :=
  match df with [] => true | _ :: _ => false end.

(** [range(n)] *)
Definition range (n : Z) : list Z := map Z.of_nat (seq 0 (Z.to_nat n)).

(** [frame.iloc[i]]: a negative position counts from the end, a position
    outside the frame is an [IndexError]. *)
Definition iloc {A : Type} (frame : list A) (i : Z) : Exn + A :=
  let j := if i <? 0 then Z.of_nat (length frame) + i else i in
  if j <? 0 then inl IndexError
  else match frame !! Z.to_nat j with
       | Some x => inr x
       | None => inl IndexError
       end.

(** [frame.iloc[a:b]] for [0 <= a] and [0 <= b]: positions [a] up to
    but excluding [b], cut at the end of the frame. *)
Definition iloc_slice {A : Type} (frame : list A) (a b : Z) : list A :=
  take (Z.to_nat (b - a)) (drop (Z.to_nat a) frame).

(** *** The store of DataFrame objects *)

Definition loc : Type := nat.

(** Library calls worth recording: a run of the projection engine on a
    frame, a [pd.concat] of frames into a new one, and the evaluation of
    [Series.min()]. *)
Inductive Event : Type :=
| EvEngine (df : loc)
| EvConcat (frames : list loc) (new : loc)
| EvSeriesMin.

Record State : Type := mkState {
  heap : list DataFrame;
  trace : list Event
}.

(** Computations: they read and update the store, and either raise or
    return.  The store survives an exception. *)
Definition M (A : Type) : Type := State -> State * (Exn + A).

Definition ret {A : Type} (a : A) : M A := fun st => (st, inr a).

Definition bind {A B : Type} (m : M A) (f : A -> M B) : M B :=
  fun st =>
    match m st with
    | (st', inr a) => f a st'
    | (st', inl e) => (st', inl e)
    end.

Definition lift {A : Type} (r : Exn + A) : M A := fun st => (st, r).

(** Reading the object behind a reference; a reference that denotes no
    DataFrame has none of its attributes. *)
Definition load (l : loc) : M DataFrame :=
  fun st =>
    match heap st !! l with
    | Some df => (st, inr df)
    | None => (st, inl AttributeError)
    end.

(** A new object. *)
Definition alloc (df : DataFrame) : M loc :=
  fun st =>
    ({| heap := heap st ++ [df]; trace := trace st |},
     inr (length (heap st))).

(** In-place update of the object behind a reference. *)
Definition assign (l : loc) (df : DataFrame) : M unit :=
  fun st =>
    ({| heap := <[l := df]> (heap st); trace := trace st |}, inr tt).

Definition emit (e : Event) : M unit :=
  fun st => ({| heap := heap st; trace := trace st ++ [e] |}, inr tt).

End Pandas.

(* ===================================================================== *)
(** ** src/simulator.py *)
(* ===================================================================== *)

Module Simulator.
Import Numeric Pandas.

Notation "'let*' x ':=' c 'in' k" := (bind c (fun x => k))
  (at level 10, x pattern, c at level 100, k at level 200, only parsing).

Local Open Scope Q_scope.
Local Open Scope string_scope.

(** [for x in xs: s = body(x, s)] *)
Fixpoint foreach {A S : Type} (xs : list A) (body : A -> S -> M S)
    (s : S) : M S :=
  match xs with
  | [] => ret s
  | x :: xs' => let* s' := body x s in foreach xs' body s'
  end.

(** The outcome of one pass through the body of a loop that may
    [break]. *)
Inductive Flow (S : Type) : Type :=
| Continue (s : S)
| Break (s : S).
Arguments Continue {S} s.
Arguments Break {S} s.

(** [for x in xs: ...] with [break] *)
Fixpoint foreach_break {A S : Type} (xs : list A)
    (body : A -> S -> M (Flow S)) (s : S) : M S :=
  match xs with
  | [] => ret s
  | x :: xs' =>
      let* fl := body x s in
      match fl with
      | Continue s' => foreach_break xs' body s'
      | Break s' => ret s'
      end
  end.

(** [df.copy()]: a new object with the same content. *)
Definition DataFrame_copy (df : loc) : M loc :=
  let* content := load df in alloc content.

Inductive AlertType : Type :=
| OK
| BELOW_TARGET.

(** One row of the DataFrame of results. *)
Record DailyProjection : Type := mkDailyProjection {
  date : Timestamp;
  start_balance : Q;
  transactions_summary : string;
  net_change : Q;
  end_balance : Q;
  alert_type : AlertType
}.

(** [f"{tx['description']}: {tx['amount']:.2f}"]; the [f] conversion of
    a string is a [ValueError]. *)
Definition summary_part (tx : Row) : Exn + string :=
  match tx_amount tx with
  | ANum q => inr (tx_description tx ++ ": " ++ format_2f q)
  | AStr _ => inl ValueError
  end.

(** The loop over [day_transactions.iterrows()]. *)
Fixpoint summary_parts (rows : DataFrame) : Exn + list string :=
  match rows with
  | [] => inr []
  | tx :: rows' =>
      match summary_part tx with
      | inl e => inl e
      | inr p =>
          match summary_parts rows' with
          | inl e => inl e
          | inr ps => inr (p :: ps)
          end
      end
  end.

(** [f"SYSTEM: Add funds ({shortfall:.2f})"] *)
Definition add_funds_note (shortfall : Q) : string :=
  "SYSTEM: Add funds (" ++ format_2f shortfall ++ ")".

(** Truth value of a string: non-empty. *)
Definition truthy (s : string) : bool :=
  match s with EmptyString => false | String _ _ => true end.

(** [calculate_intelligent_transfer]: the transfer advisor.  The
    difference [target_balance - lowest_future_balance] is NaN when the
    series is empty, and [max(0, nan)] is [0] because [nan > 0] is
    false. *)
Definition calculate_intelligent_transfer
    (month_end_balance target_balance : Q)
    (future_30_day_balances : list Q) : M Q :=
  let surplus := month_end_balance - target_balance in
  if Qleb surplus 0 then ret 0
  else
    let* _ := emit EvSeriesMin in
    let lowest_future_balance := Series_min future_30_day_balances in
    let shortfall :=
      match lowest_future_balance with
      | Some lowest => pymax 0 (target_balance - lowest)
      | None => 0
      end in
    let recommended_transfer := pymax 0 (surplus - shortfall) in
    ret recommended_transfer.

(** [pd.concat(frames, ignore_index=True)]: a new frame holding the rows
    of the given frames, in order. *)
Fixpoint load_all (frames : list loc) : M (list DataFrame) :=
  match frames with
  | [] => ret []
  | l :: frames' =>
      let* df := load l in
      let* dfs := load_all frames' in
      ret (df :: dfs)
  end.

Definition pd_concat (frames : list loc) : M loc :=
  let* contents := load_all frames in
  let* new := alloc (List.concat contents) in
  let* _ := emit (EvConcat frames new) in
  ret new.

Section WithParsers.

(** The string parsers of [pd.to_numeric] and [pd.to_datetime]. *)
Variable parse_numeric : string -> option Q.
Variable parse_datetime : string -> option Timestamp.

(** The body of the day loop of [run_simulation_engine]; the loop
    carries [results] and [current_balance]. *)
Definition engine_day (target_balance : Q) (transactions_df : loc)
    (start_date : Calendar.date) (day_offset : Z)
    (acc : list DailyProjection * Q) : M (list DailyProjection * Q) :=
  let results := fst acc in
  let current_balance := snd acc in
  let current_date := Calendar.add_days start_date day_offset in
  let current_date_pd := Timestamp_of_date current_date in
  let day_start_balance := current_balance in
  let* frame := load transactions_df in
  let* dates := lift (dt_date (map tx_date frame)) in
  let mask := map (fun d => Calendar.date_eqb d current_date) dates in
  let* day_transactions := alloc (getitem_mask frame mask) in
  let* day_frame := load day_transactions in
  let* day :=
    if empty day_frame then ret (0, "")
    else
      let* day_transactions := DataFrame_copy day_transactions in
      let* day_frame := load day_transactions in
      let* amounts :=
        lift (to_numeric parse_numeric (map tx_amount day_frame)) in
      let* _ := assign day_transactions (with_amount day_frame amounts) in
      let* day_frame := load day_transactions in
      let* values := lift (float_values (map tx_amount day_frame)) in
      let day_net_change := Series_sum values in
      let* parts := lift (summary_parts day_frame) in
      ret (day_net_change, String.concat ", " parts) in
  let day_net_change := fst day in
  let transactions_summary := snd day in
  let day_end_balance := day_start_balance + day_net_change in
  let alert :=
    if Qltb day_end_balance target_balance then
      let shortfall := target_balance - day_end_balance in
      (BELOW_TARGET,
       if truthy transactions_summary
       then transactions_summary ++ ", " ++ add_funds_note shortfall
       else add_funds_note shortfall)
    else (OK, transactions_summary) in
  let alert_type := fst alert in
  let transactions_summary := snd alert in
  let current_balance := day_end_balance in
  ret ((results ++ [ {| date := current_date_pd;
                        start_balance := day_start_balance;
                        transactions_summary := transactions_summary;
                        net_change := day_net_change;
                        end_balance := day_end_balance;
                        alert_type := alert_type |} ])%list,
       current_balance).

Definition run_simulation_engine (start_balance target_balance : Q)
    (transactions_df : loc) (start_date : Calendar.date)
    (window_days : Z) : M (list DailyProjection) :=
  let* _ := emit (EvEngine transactions_df) in
  let results : list DailyProjection := [] in
  let* transactions_df := DataFrame_copy transactions_df in
  let current_balance := start_balance in
  let* final :=
    foreach (range window_days)
      (engine_day target_balance transactions_df start_date)
      (results, current_balance) in
  ret (fst final).

(** The state of the scan loop of [generate_simulation_report]:
    [transactions_df], [sim_results_df] and [recommended_transfer]. *)
Definition ReportState : Type := (loc * list DailyProjection * Q)%type.

(** The body of the scan loop. *)
Definition report_step (start_balance target_balance : Q)
    (start_date : Calendar.date) (window_days : Z) (i : Z)
    (s : ReportState) : M (Flow ReportState) :=
  let transactions_df := fst (fst s) in
  let sim_results_df := snd (fst s) in
  let* row := lift (iloc sim_results_df i) in
  let current_day := ts_date (date row) in
  let* next_row := lift (iloc sim_results_df (i + 1)) in
  let next_day := ts_date (date next_row) in
  if negb (Calendar.month current_day =? Calendar.month next_day)%Z then
    let* row := lift (iloc sim_results_df i) in
    let month_end_balance := end_balance row in
    let look_ahead_days :=
      Z.min 30 (Z.of_nat (length sim_results_df) - i - 1) in
    let future_balances :=
      map end_balance
        (iloc_slice sim_results_df (i + 1) (i + 1 + look_ahead_days)) in
    let* recommended_transfer :=
      calculate_intelligent_transfer
        month_end_balance target_balance future_balances in
    if Qltb 0 recommended_transfer then
      let next_month_first := next_day in
      let* virtual_tx :=
        alloc [ {| tx_date := DStamp (Timestamp_of_date next_month_first);
                   tx_amount := ANum (- recommended_transfer);
                   tx_description := "Surplus Transfer";
                   tx_category := "System";
                   tx_forecast := "1" |} ] in
      let* transactions_df := pd_concat [transactions_df; virtual_tx] in
      let* sim_results_df :=
        run_simulation_engine start_balance target_balance
          transactions_df start_date window_days in
      ret (Break (transactions_df, sim_results_df, recommended_transfer))
    else
      ret (Continue (transactions_df, sim_results_df,
                     recommended_transfer))
  else ret (Continue s).

Definition generate_simulation_report (start_balance target_balance : Q)
    (transactions_df : loc) (start_date : Calendar.date)
    (window_days : Z) : M (list DailyProjection * Q) :=
  let* transactions_df := DataFrame_copy transactions_df in
  let* frame := load transactions_df in
  let* _ :=
    if negb (is_datetime64_any_dtype (map tx_date frame)) then
      let* col := lift (to_datetime parse_datetime (map tx_date frame)) in
      assign transactions_df (with_date frame col)
    else ret tt in
  let* frame := load transactions_df in
  let* col := lift (to_numeric parse_numeric (map tx_amount frame)) in
  let* _ := assign transactions_df (with_amount frame col) in
  let* sim_results_df :=
    run_simulation_engine start_balance target_balance
      transactions_df start_date window_days in
  let recommended_transfer := 0 in
  let* final :=
    foreach_break (range (Z.of_nat (length sim_results_df) - 1))
      (report_step start_balance target_balance start_date window_days)
      (transactions_df, sim_results_df, recommended_transfer) in
  ret (snd (fst final), snd final).

End WithParsers.

(** *** Sample runs *)

(** A parser for plain decimal numerals: an optional sign, digits, and
    an optional fraction. *)
Fixpoint digits_value (acc : Z) (s : string) : option Z :=
  match s with
  | EmptyString => Some acc
  | String c s' =>
      let k := (Z.of_nat (nat_of_ascii c) - 48)%Z in
      if ((0 <=? k) && (k <=? 9))%Z
      then digits_value (10 * acc + k)%Z s'
      else None
  end.

Fixpoint split_point (s : string) : string * option string :=
  match s with
  | EmptyString => (EmptyString, None)
  | String c s' =>
      if Ascii.eqb c "."%char then (EmptyString, Some s')
      else let r := split_point s' in (String c (fst r), snd r)
  end.

Definition parse_unsigned (s : string) : option Q :=
  let parts := split_point s in
  match fst parts with
  | EmptyString => None
  | whole =>
      match digits_value 0 whole, snd parts with
      | Some w, None => Some (inject_Z w)
      | Some w, Some frac =>
          match digits_value 0 frac with
          | Some f =>
              Some (inject_Z w
                    + Qmake f (Pos.pow 10 (Pos.of_nat (String.length frac))))
          | None => None
          end
      | None, _ => None
      end
  end.

Definition parse_decimal (s : string) : option Q :=
  match s with
  | String "-"%char s' => option_map Qopp (parse_unsigned s')
  | _ => parse_unsigned s
  end.

(** No string is accepted as a date: the sample ledgers below carry
    timestamps already, as the command-line layer delivers them. *)
Definition parse_no_date (s : string) : option Timestamp := None.

Definition tx (y m d : Z) (amount description : string) : Row :=
  {| tx_date := DStamp (Timestamp_of_date (Calendar.mkdate y m d));
     tx_amount := AStr amount;
     tx_description := description;
     tx_category := "Fixed";
     tx_forecast := "1" |}.

(** The ledger of [tests/test_simulator.py]. *)
Definition sample_sim_transactions : DataFrame :=
  [ tx 2024 1 2 "-1500.00" "Rent";
    tx 2024 1 5 "2500.00" "Paycheck";
    tx 2024 1 5 "-50.00" "Spotify";
    tx 2024 1 8 "-800.00" "Car Payment" ].

(** A store holding one ledger, at reference [0], and an empty trace. *)
Definition initial (df : DataFrame) : State :=
  {| heap := [df]; trace := [] |}.

(** A ledger for a window that crosses two month ends: one inflow in
    the middle of February. *)
Definition two_month_ledger : DataFrame :=
  [ tx 2024 2 10 "500.00" "Paycheck" ].

(** Forty days from 2024-01-30, start and target balance both 1000. *)
Definition two_month_engine : State * (Exn + list DailyProjection) :=
  run_simulation_engine parse_decimal 1000 1000 0%nat
    (Calendar.mkdate 2024 1 30) 40 (initial two_month_ledger).

Definition two_month_report
    : State * (Exn + (list DailyProjection * Q)) :=
  generate_simulation_report parse_decimal parse_no_date 1000 1000 0%nat
    (Calendar.mkdate 2024 1 30) 40 (initial two_month_ledger).

(** The ledger of the tests over ten and over forty days from
    2024-01-01, start balance 2000 and target 1000. *)
Definition sample_engine (window_days : Z)
    : State * (Exn + list DailyProjection) :=
  run_simulation_engine parse_decimal 2000 1000 0%nat
    (Calendar.mkdate 2024 1 1) window_days
    (initial sample_sim_transactions).

Definition sample_report : State * (Exn + (list DailyProjection * Q)) :=
  generate_simulation_report parse_decimal parse_no_date 2000 1000 0%nat
    (Calendar.mkdate 2024 1 1) 40 (initial sample_sim_transactions).

(** The rows of an outcome, none if it is an exception. *)
Definition rows_of (r : State * (Exn + list DailyProjection))
    : list DailyProjection :=
  match snd r with inr rows => rows | inl _ => [] end.

(** The run of the engine over ten days of the tests' ledger. *)
Definition sample_rows : list DailyProjection := rows_of (sample_engine 10).
Definition sample_final : State := fst (sample_engine 10).

End Simulator.

(* ===================================================================== *)
(** ** The engine as a function of the ledger's content

    The day loop of [run_simulation_engine] reads the store only through
    its private copy of the ledger.  The definitions below describe what a
    run computes from the content of that copy; the engine is proved to
    agree with them, and the properties of its results are then read off
    them. *)
(* ===================================================================== *)

Module Reference.
Import Numeric Pandas Simulator.

Local Open Scope Q_scope.
Local Open Scope string_scope.

(** The row is dated on the given day. *)
Definition on_day (day : Calendar.date) (r : Row) : bool :=
  match tx_date r with
  | DStamp t => Calendar.date_eqb (ts_date t) day
  | DStr _ => false
  end.

(** The transactions of a day, in ledger order. *)
Definition transactions_on (frame : DataFrame) (day : Calendar.date)
    : DataFrame :=
  List.filter (on_day day) frame.

(** The summary fragment of a transaction of numeric amount [q]. *)
Definition fragment (r : Row) (q : Q) : string :=
  tx_description r ++ ": " ++ format_2f q.

(** The summary of a day before the alert rule is applied. *)
Definition base_summary (rows : DataFrame) (amounts : list Q) : string :=
  String.concat ", " (zip_with fragment rows amounts).

(** The sentence that an alert adds to a summary. *)
Definition with_note (base : string) (shortfall : Q) : string :=
  if truthy base then base ++ ", " ++ add_funds_note shortfall
  else add_funds_note shortfall.

(** The result row of a day, from the balance carried into it and the
    day's net change and summary. *)
Definition projection (target_balance : Q) (day : Calendar.date)
    (balance : Q) (totals : Q * string) : DailyProjection :=
  let end_of_day := balance + fst totals in
  {| date := Timestamp_of_date day;
     start_balance := balance;
     transactions_summary :=
       if Qltb end_of_day target_balance
       then with_note (snd totals) (target_balance - end_of_day)
       else snd totals;
     net_change := fst totals;
     end_balance := end_of_day;
     alert_type :=
       if Qltb end_of_day target_balance then BELOW_TARGET else OK |}.

Section WithParser.

Variable parse_numeric : string -> option Q.

(** Net change and summary of a day. *)
Definition day_totals (frame : DataFrame) (day : Calendar.date)
    : Exn + (Q * string) :=
  match dt_date (map tx_date frame) with
  | inl e => inl e
  | inr _ =>
      let rows := transactions_on frame day in
      if empty rows then inr (0, "")
      else
        match to_numeric parse_numeric (map tx_amount rows) with
        | inl e => inl e
        | inr amounts =>
            inr (Series_sum amounts, base_summary rows amounts)
        end
  end.

(** The rows of the days at the given offsets, and the balance after
    the last of them. *)
Fixpoint project (frame : DataFrame) (target_balance : Q)
    (start_date : Calendar.date) (offsets : list Z) (balance : Q)
    : Exn + (list DailyProjection * Q) :=
  match offsets with
  | [] => inr ([], balance)
  | k :: offsets' =>
      let day := Calendar.add_days start_date k in
      match day_totals frame day with
      | inl e => inl e
      | inr totals =>
          let p := projection target_balance day balance totals in
          match project frame target_balance start_date offsets'
                  (end_balance p) with
          | inl e => inl e
          | inr (ps, final) => inr (p :: ps, final)
          end
      end
  end.

End WithParser.

(** The store has grown: every object that existed is unchanged, and
    the events [evs] were recorded. *)
Definition grown (st st' : State) (evs : list Event) : Prop :=
  (exists extra, heap st' = (heap st ++ extra)%list)
  /\ trace st' = (trace st ++ evs)%list.

Definition is_concat (e : Event) : bool :=
  match e with EvConcat _ _ => true | _ => false end.

Definition is_engine (e : Event) : bool :=
  match e with EvEngine _ => true | _ => false end.

(** What a scan of the result may record after the initial run: nothing,
    or one concatenation of the ledger copy [ledger] with a one-row
    frame, both allocated from [base] on, followed by one run of the
    engine on the new frame. *)
Definition injection (ledger : loc) (base : nat) (evs : list Event)
    : Prop :=
  evs = []
  \/ exists virtual_tx new,
       evs = [EvConcat [ledger; virtual_tx] new; EvEngine new]
       /\ (base <= virtual_tx)%nat /\ (base <= new)%nat.

(** The events of a scan: evaluations of the minimum, then at most one
    injection, after which nothing more happens. *)
Definition scan_events (ledger : loc) (base : nat) (evs : list Event)
    : Prop :=
  exists k tail,
    evs = (repeat EvSeriesMin k ++ tail)%list /\ injection ledger base tail.

(** The first position whose day and the next lie in different
    calendar months, counting from [i]. *)
Fixpoint first_month_boundary_from (i : nat) (sim : list DailyProjection)
    : option nat :=
  match sim with
  | p :: rest =>
      match rest with
      | q :: _ =>
          if negb (Calendar.month (ts_date (date p))
                   =? Calendar.month (ts_date (date q)))%Z
          then Some i
          else first_month_boundary_from (S i) rest
      | [] => None
      end
  | [] => None
  end.

Definition first_month_boundary (sim : list DailyProjection)
    : option nat :=
  first_month_boundary_from 0 sim.

(** The value the advisor returns, whatever the store. *)
Definition advice (month_end_balance target_balance : Q)
    (future_balances : list Q) : Q :=
  match snd (calculate_intelligent_transfer month_end_balance
               target_balance future_balances
               {| heap := []; trace := [] |}) with
  | inr amount => amount
  | inl _ => 0
  end.

(** The recommendation at the first month boundary of a result: the
    advice from the end balance of the day before the boundary and the
    end balances of up to thirty following days; [0] without a
    boundary. *)
Definition first_boundary_advice (target_balance : Q)
    (sim : list DailyProjection) : Q :=
  match first_month_boundary sim with
  | None => 0
  | Some i =>
      match sim !! i with
      | Some p =>
          advice (end_balance p) target_balance
            (map end_balance (take 30 (drop (S i) sim)))
      | None => 0
      end
  end.

(** The last character of a string. *)
Fixpoint last_char (s : string) : option ascii :=
  match s with
  | EmptyString => None
  | String c EmptyString => Some c
  | String _ s' => last_char s'
  end.


End Reference.

(* ===================================================================== *)
(** ** Further descriptions of what the simulator computes

    The window of a run, the decision the scan loop of
    [generate_simulation_report] takes, and the ledger it works on, as
    functions of the ledger's content.  The code is proved to agree with
    them. *)
(* ===================================================================== *)

Module Behaviour.
Import Numeric Pandas Simulator Reference.

Local Open Scope Q_scope.
Local Open Scope string_scope.

(** The row is dated on one of the days
    [start_date, ..., start_date + window_days - 1]. *)
Definition in_window (start_date : Calendar.date) (window_days : Z)
    (r : Row) : bool :=
  match tx_date r with
  | DStamp t =>
      ((Calendar.toordinal start_date
        <=? Calendar.toordinal (ts_date t))%Z
       && (Calendar.toordinal (ts_date t)
           <? Calendar.toordinal start_date + window_days)%Z)%bool
  | DStr _ => false
  end.

(** The number a cell of the amount column converts to, if any. *)
Definition cell_value (parse : string -> option Q) (c : AmountCell)
    : option Q :=
  match c with ANum q => Some q | AStr s => parse s end.


(** The balance a run ends with: the end balance of its last row, the
    start balance if it has no rows. *)
Definition closing_balance (start_balance : Q)
    (rows : list DailyProjection) : Q :=
  match last rows with
  | Some p => end_balance p
  | None => start_balance
  end.

(** The fields of a result row that describe the money: day, start
    balance, net change and end balance. *)
Definition balances (p : DailyProjection) : Timestamp * Q * Q * Q :=
  (date p, start_balance p, net_change p, end_balance p).

(** The row that [generate_simulation_report] adds to the ledger. *)
Definition surplus_transfer (day : Calendar.date) (amount : Q) : Row :=
  {| tx_date := DStamp (Timestamp_of_date day);
     tx_amount := ANum (- amount);
     tx_description := "Surplus Transfer";
     tx_category := "System";
     tx_forecast := "1" |}.

(** The scan of a result for month boundaries: at each pair of
    consecutive rows in different calendar months the advisor is asked,
    with the end balance of the first row and the end balances of up to
    thirty rows after it; the scan stops at the first boundary whose
    advice is positive and yields the day after that boundary and the
    advice. *)
Fixpoint transfer_decision (target_balance : Q)
    (sim : list DailyProjection) : option (Calendar.date * Q) :=
  match sim with
  | p :: rest =>
      match rest with
      | q :: _ =>
          if negb (Calendar.month (ts_date (date p))
                   =? Calendar.month (ts_date (date q)))%Z
          then
            let amount :=
              advice (end_balance p) target_balance
                (map end_balance (take 30 rest)) in
            if Qltb 0 amount then Some (ts_date (date q), amount)
            else transfer_decision target_balance rest
          else transfer_decision target_balance rest
      | [] => None
      end
  | [] => None
  end.

(** The ledger [generate_simulation_report] simulates: the caller's
    frame with its date column converted, unless it holds timestamps
    already, and its amount column converted. *)
Definition normalised (parse_numeric : string -> option Q)
    (parse_datetime : string -> option Timestamp) (frame : DataFrame)
    : Exn + DataFrame :=
  match (if negb (is_datetime64_any_dtype (map tx_date frame))
         then match to_datetime parse_datetime (map tx_date frame) with
              | inl e => inl e
              | inr col => inr (with_date frame col)
              end
         else inr frame) with
  | inl e => inl e
  | inr dated =>
      match to_numeric parse_numeric (map tx_amount dated) with
      | inl e => inl e
      | inr col => inr (with_amount dated col)
      end
  end.

(** The engine returns [sim] on the ledger, wherever the ledger is
    stored. *)
Definition engine_result (parse_numeric : string -> option Q)
    (start_balance target_balance : Q) (ledger : DataFrame)
    (start_date : Calendar.date) (window_days : Z)
    (sim : list DailyProjection) : Prop :=
  forall st (l : loc),
    heap st !! l = Some ledger ->
    snd (run_simulation_engine parse_numeric start_balance target_balance
           l start_date window_days st)
    = inr sim.

(** Boolean comparisons of integers in the hypotheses, as
    propositions. *)
Ltac zbool :=
  repeat match goal with
         | H : (_ =? _)%Z = true |- _ => apply Z.eqb_eq in H
         | H : (_ =? _)%Z = false |- _ => apply Z.eqb_neq in H
         | H : (_ <=? _)%Z = true |- _ => apply Z.leb_le in H
         | H : (_ <=? _)%Z = false |- _ => apply Z.leb_gt in H
         | H : (_ <? _)%Z = true |- _ => apply Z.ltb_lt in H
         | H : (_ <? _)%Z = false |- _ => apply Z.ltb_ge in H
         end.

End Behaviour.

(* ===================================================================== *)
(** ** More sample data *)
(* ===================================================================== *)

Module Samples.
Import Numeric Pandas Simulator Reference Behaviour.

Local Open Scope Q_scope.
Local Open Scope string_scope.

(** A ledger whose date column was never converted: its dates are
    still strings. *)
Definition raw_ledger : DataFrame :=
  [ {| tx_date := DStr "2024-01-02";
       tx_amount := AStr "-1500.00";
       tx_description := "Rent";
       tx_category := "Fixed";
       tx_forecast := "1" |} ].

(** A transaction whose amount is no number, dated years after the
    windows of the samples. *)
Definition bonus : Row := tx 2030 6 1 "n/a" "Bonus".

Definition ledger_with_bad_amount : DataFrame :=
  (sample_sim_transactions ++ [bonus])%list.


(** The ledger of the tests as the orchestrator simulates it. *)
Definition sample_ledger : DataFrame :=
  match normalised parse_decimal parse_no_date sample_sim_transactions with
  | inr ledger => ledger
  | inl _ => []
  end.


Definition sample_report_amount : Q :=
  match snd sample_report with
  | inr (_, amount) => amount
  | inl _ => 0
  end.

End Samples.

(* ===================================================================== *)
(** ** Facts about the library models *)
(* ===================================================================== *)

Module PandasFacts.
Import Numeric Pandas Simulator Reference.

Lemma to_numeric_length parse col qs :
  to_numeric parse col = inr qs -> length qs = length col.
Proof.
  revert qs. induction col as [| c col IH]; intros qs H; simpl in H.
  - injection H as <-. reflexivity.
  - destruct (match c with ANum q => Some q | AStr s => parse s end);
      [| discriminate].
    destruct (to_numeric parse col) as [e | qs']; [discriminate |].
    injection H as <-. simpl. f_equal. apply IH. reflexivity.
Qed.

Lemma to_datetime_length parse col ts :
  to_datetime parse col = inr ts -> length ts = length col.
Proof.
  revert ts. induction col as [| c col IH]; intros ts H; simpl in H.
  - injection H as <-. reflexivity.
  - destruct (match c with DStamp t => Some t | DStr s => parse s end);
      [| discriminate].
    destruct (to_datetime parse col) as [e | ts']; [discriminate |].
    injection H as <-. simpl. f_equal. apply IH. reflexivity.
Qed.

(** Once the numeric column is assigned, the frame holds exactly those
    numbers. *)
Lemma float_values_with_amount (df : DataFrame) (qs : list Q) :
  length qs = length df ->
  float_values (map tx_amount (with_amount df qs)) = inr qs.
Proof.
  revert qs. induction df as [| r df IH]; intros [| q qs] H;
    simpl in *; try discriminate; [reflexivity |].
  unfold with_amount in IH. rewrite IH by lia. reflexivity.
Qed.

Lemma summary_parts_with_amount (df : DataFrame) (qs : list Q) :
  length qs = length df ->
  summary_parts (with_amount df qs) = inr (zip_with fragment df qs).
Proof.
  revert qs. induction df as [| r df IH]; intros [| q qs] H;
    simpl in *; try discriminate; [reflexivity |].
  unfold with_amount in IH. rewrite IH by lia. reflexivity.
Qed.

(** Selecting with the mask of a day keeps that day's transactions. *)
Lemma getitem_mask_day (frame : DataFrame) dates day :
  dt_date (map tx_date frame) = inr dates ->
  getitem_mask frame (map (fun d => Calendar.date_eqb d day) dates)
  = transactions_on frame day.
Proof.
  revert dates. induction frame as [| r frame IH]; intros dates H.
  - simpl in H. injection H as <-. reflexivity.
  - simpl in H. unfold transactions_on, on_day. simpl.
    destruct (tx_date r) as [s | t]; [discriminate |].
    destruct (dt_date (map tx_date frame)) as [e | ds]; [discriminate |].
    injection H as <-. simpl.
    rewrite (IH ds eq_refl). reflexivity.
Qed.

(** The [.dt] accessor works exactly on the columns of timestamps. *)
Lemma dt_date_ok col :
  is_datetime64_any_dtype col = true -> exists dates, dt_date col = inr dates.
Proof.
  induction col as [| c col IH]; simpl; intros H.
  - eexists; reflexivity.
  - apply andb_true_iff in H as [Hc H]. destruct c; [discriminate |].
    destruct (IH H) as [ds ->]. eexists; reflexivity.
Qed.

Lemma dt_date_error col e : dt_date col = inl e -> e = AttributeError.
Proof.
  induction col as [| c col IH]; simpl; [discriminate |].
  destruct c; [intros [= <-]; reflexivity |].
  destruct (dt_date col); [| discriminate].
  intros [= <-]. apply IH. reflexivity.
Qed.

(** A column that converts as a whole converts on any selection of its
    rows. *)
Lemma to_numeric_filter parse (f : Row -> bool) (frame : DataFrame) qs :
  to_numeric parse (map tx_amount frame) = inr qs ->
  exists qs', to_numeric parse (map tx_amount (List.filter f frame)) = inr qs'.
Proof.
  revert qs. induction frame as [| r frame IH]; intros qs H; simpl in *.
  - eexists; reflexivity.
  - destruct (match tx_amount r with ANum q => Some q | AStr s => parse s end)
      as [q |] eqn:Hq; [| discriminate].
    destruct (to_numeric parse (map tx_amount frame)) as [e | qs0];
      [discriminate |].
    destruct (IH qs0 eq_refl) as [qs' Hqs'].
    destruct (f r); simpl; [rewrite Hq, Hqs' |]; eexists; eauto.
Qed.

Lemma range_length n : length (range n) = Z.to_nat n.
Proof. unfold range. rewrite length_map, length_seq. reflexivity. Qed.

Lemma range_lookup n (i : nat) :
  (i < Z.to_nat n)%nat -> range n !! i = Some (Z.of_nat i).
Proof.
  intros H. unfold range. rewrite list_lookup_fmap.
  rewrite lookup_seq_lt by exact H. reflexivity.
Qed.

Lemma range_nonpos n : n <= 0 -> range n = [].
Proof.
  intros H. unfold range. replace (Z.to_nat n) with 0%nat by lia.
  reflexivity.
Qed.

Lemma iloc_lookup {A} (frame : list A) (i : nat) x :
  frame !! i = Some x -> iloc frame (Z.of_nat i) = inr x.
Proof.
  intros H. unfold iloc.
  assert (E : (Z.of_nat i <? 0) = false) by (apply Z.ltb_ge; lia).
  rewrite E. cbv zeta. rewrite E, Nat2Z.id, H. reflexivity.
Qed.

End PandasFacts.

(* ===================================================================== *)
(** ** The store discipline *)
(* ===================================================================== *)

Module StoreFacts.
Import Numeric Pandas Simulator Reference.

Lemma grown_refl st : grown st st [].
Proof.
  split; [exists []|]; rewrite app_nil_r; reflexivity.
Qed.

Lemma grown_trans st1 st2 st3 evs1 evs2 :
  grown st1 st2 evs1 -> grown st2 st3 evs2 -> grown st1 st3 (evs1 ++ evs2).
Proof.
  intros [[x1 H1] T1] [[x2 H2] T2]. split.
  - exists (x1 ++ x2). rewrite H2, H1, app_assoc. reflexivity.
  - rewrite T2, T1, app_assoc. reflexivity.
Qed.

Lemma grown_trans_nil st1 st2 st3 evs :
  grown st1 st2 [] -> grown st2 st3 evs -> grown st1 st3 evs.
Proof. intros H1 H2. apply (grown_trans _ _ _ _ _ H1 H2). Qed.

Lemma grown_trans_nil_r st1 st2 st3 evs :
  grown st1 st2 evs -> grown st2 st3 [] -> grown st1 st3 evs.
Proof.
  intros H1 H2. pose proof (grown_trans _ _ _ _ _ H1 H2) as H.
  rewrite app_nil_r in H. exact H.
Qed.

(** Objects that exist are found again, unchanged, in a grown store. *)
Lemma grown_lookup st st' evs (l : loc) (df : DataFrame) :
  grown st st' evs -> heap st !! l = Some df -> heap st' !! l = Some df.
Proof.
  intros [[extra H] _] Hl. rewrite H. apply lookup_app_l_Some. exact Hl.
Qed.

Lemma grown_length st st' evs :
  grown st st' evs -> (length (heap st) <= length (heap st'))%nat.
Proof. intros [[extra H] _]. rewrite H, length_app. lia. Qed.

Lemma grown_alloc st df :
  grown st {| heap := heap st ++ [df]; trace := trace st |} [].
Proof.
  split; simpl; [exists [df]; reflexivity | rewrite app_nil_r; reflexivity].
Qed.

Lemma grown_emit st e :
  grown st {| heap := heap st; trace := trace st ++ [e] |} [e].
Proof.
  split; simpl; [exists []; rewrite app_nil_r |]; reflexivity.
Qed.

(** Updating an object allocated after [st] keeps the store grown. *)
Lemma grown_assign st st' evs (l : loc) df :
  grown st st' evs -> (length (heap st) <= l)%nat ->
  grown st {| heap := <[l := df]> (heap st'); trace := trace st' |} evs.
Proof.
  intros [[extra H] T] Hl. split; simpl; [| exact T].
  exists (<[(l - length (heap st))%nat := df]> extra).
  rewrite H. apply insert_app_r_alt. exact Hl.
Qed.

Lemma load_found st (l : loc) df :
  heap st !! l = Some df -> load l st = (st, inr df).
Proof. intros H. unfold load. rewrite H. reflexivity. Qed.

Lemma load_missing st (l : loc) :
  heap st !! l = None -> load l st = (st, inl AttributeError).
Proof. intros H. unfold load. rewrite H. reflexivity. Qed.

Lemma lookup_new (h : list DataFrame) df : (h ++ [df]) !! length h = Some df.
Proof. apply list_lookup_middle. reflexivity. Qed.

Lemma insert_new (h : list DataFrame) df df' :
  <[length h := df']> (h ++ [df]) = h ++ [df'].
Proof.
  rewrite insert_app_r_alt by lia. rewrite Nat.sub_diag. reflexivity.
Qed.

Lemma DataFrame_copy_found st (l : loc) df :
  heap st !! l = Some df ->
  DataFrame_copy l st
  = ({| heap := heap st ++ [df]; trace := trace st |},
     inr (length (heap st))).
Proof.
  intros H. unfold DataFrame_copy, bind. rewrite (load_found _ _ _ H).
  reflexivity.
Qed.

Lemma DataFrame_copy_missing st (l : loc) :
  heap st !! l = None -> DataFrame_copy l st = (st, inl AttributeError).
Proof.
  intros H. unfold DataFrame_copy, bind. rewrite (load_missing _ _ H).
  reflexivity.
Qed.

End StoreFacts.

(* ===================================================================== *)
(** ** The projection engine *)
(* ===================================================================== *)

Module EngineFacts.
Import Numeric Pandas Simulator Reference PandasFacts StoreFacts.

Local Open Scope Q_scope.

Section WithParser.

Variable parse_numeric : string -> option Q.

(** One pass through the day loop: the store grows, nothing is
    recorded, and the outcome is the one [day_totals] describes. *)
Lemma engine_day_run tb (l : loc) sd k results bal st frame :
  heap st !! l = Some frame ->
  exists st',
    engine_day parse_numeric tb l sd k (results, bal) st
    = (st',
       match day_totals parse_numeric frame (Calendar.add_days sd k) with
       | inl e => inl e
       | inr totals =>
           let p := projection tb (Calendar.add_days sd k) bal totals in
           inr ((results ++ [p])%list, end_balance p)
       end)
    /\ grown st st' [].
Proof.
  intros Hl. unfold engine_day, day_totals.
  unfold bind at 1. rewrite (load_found _ _ _ Hl).
  unfold bind at 1. unfold lift at 1.
  destruct (dt_date (map tx_date frame)) as [e | dates] eqn:Hd.
  { exists st. split; [reflexivity | apply grown_refl]. }
  rewrite (getitem_mask_day _ _ _ Hd).
  generalize (transactions_on frame (Calendar.add_days sd k)).
  intros rows.
  unfold bind at 1. unfold alloc at 1.
  set (st1 := {| heap := heap st ++ [rows]; trace := trace st |}).
  assert (G1 : grown st st1 []) by apply grown_alloc.
  assert (L1 : heap st1 !! length (heap st) = Some rows)
    by apply lookup_new.
  unfold bind at 1. rewrite (load_found _ _ _ L1).
  destruct (empty rows) eqn:He.
  { exists st1. split; [| exact G1].
    unfold bind, ret, projection, with_note. simpl.
    destruct (Qltb (bal + 0) tb); reflexivity. }
  unfold bind at 1. unfold bind at 1.
  rewrite (DataFrame_copy_found _ _ _ L1).
  set (st2 := {| heap := heap st1 ++ [rows]; trace := trace st1 |}).
  assert (G2 : grown st st2 [])
    by (apply (grown_trans_nil _ _ _ _ G1); apply grown_alloc).
  assert (L2 : heap st2 !! length (heap st1) = Some rows)
    by apply lookup_new.
  unfold bind at 1. rewrite (load_found _ _ _ L2).
  unfold bind at 1. unfold lift at 1.
  destruct (to_numeric parse_numeric (map tx_amount rows))
    as [e | amounts] eqn:Hn.
  { exists st2. split; [| exact G2]. reflexivity. }
  pose proof (to_numeric_length _ _ _ Hn) as Hlen.
  rewrite length_map in Hlen.
  unfold bind at 1. unfold assign at 1.
  match goal with |- context [bind (load _) _ ?s] => set (st3 := s) end.
  unfold bind at 1.
  assert (G3 : grown st st3 []).
  { apply grown_assign; [exact G2 |].
    apply (grown_length _ _ _ G1). }
  assert (L3 : heap st3 !! length (heap st1)
               = Some (with_amount rows amounts)).
  { unfold st3, st2. simpl heap. rewrite insert_new. apply lookup_new. }
  rewrite (load_found _ _ _ L3).
  unfold bind at 1. unfold lift at 1.
  rewrite (float_values_with_amount _ _ Hlen).
  unfold bind at 1. unfold lift at 1.
  rewrite (summary_parts_with_amount _ _ Hlen).
  exists st3. split; [| exact G3].
  unfold bind, ret, projection, with_note, base_summary. simpl.
  destruct (Qltb (bal + Series_sum amounts) tb); reflexivity.
Qed.

Lemma engine_loop_run tb (l : loc) sd offsets frame :
  forall results bal st,
  heap st !! l = Some frame ->
  exists st',
    foreach offsets (engine_day parse_numeric tb l sd) (results, bal) st
    = (st',
       match project parse_numeric frame tb sd offsets bal with
       | inl e => inl e
       | inr (ps, final) => inr ((results ++ ps)%list, final)
       end)
    /\ grown st st' [].
Proof.
  induction offsets as [| k offsets IH]; intros results bal st Hl.
  - exists st. simpl. rewrite app_nil_r.
    split; [reflexivity | apply grown_refl].
  - destruct (engine_day_run tb l sd k results bal st frame Hl)
      as (st1 & E1 & G1).
    cbn [foreach project]. unfold bind at 1. rewrite E1.
    destruct (day_totals parse_numeric frame (Calendar.add_days sd k))
      as [e | totals].
    { exists st1. split; [reflexivity | exact G1]. }
    cbv zeta.
    set (p := projection tb (Calendar.add_days sd k) bal totals).
    destruct (IH (results ++ [p])%list (end_balance p) st1
                (grown_lookup _ _ _ _ _ G1 Hl)) as (st2 & E2 & G2).
    exists st2. split; [| exact (grown_trans_nil _ _ _ _ G1 G2)].
    rewrite E2.
    destruct (project parse_numeric frame tb sd offsets (end_balance p))
      as [e | [ps final]]; [reflexivity |].
    rewrite <- app_assoc. reflexivity.
Qed.

(** What a run of the engine computes, and what it leaves behind. *)
Lemma run_simulation_engine_run sb tb (l : loc) sd wd st frame :
  heap st !! l = Some frame ->
  exists st',
    run_simulation_engine parse_numeric sb tb l sd wd st
    = (st',
       match project parse_numeric frame tb sd (range wd) sb with
       | inl e => inl e
       | inr (ps, _) => inr ps
       end)
    /\ grown st st' [EvEngine l].
Proof.
  intros Hl. unfold run_simulation_engine.
  unfold bind at 1. unfold emit at 1.
  set (st0 := {| heap := heap st; trace := trace st ++ [EvEngine l] |}).
  assert (G0 : grown st st0 [EvEngine l]) by apply grown_emit.
  assert (L0 : heap st0 !! l = Some frame) by exact Hl.
  unfold bind at 1. rewrite (DataFrame_copy_found _ _ _ L0).
  set (st1 := {| heap := heap st0 ++ [frame]; trace := trace st0 |}).
  assert (G1 : grown st st1 [EvEngine l])
    by (apply (grown_trans_nil_r _ _ _ _ G0); apply grown_alloc).
  assert (L1 : heap st1 !! length (heap st0) = Some frame)
    by apply lookup_new.
  destruct (engine_loop_run tb (length (heap st0)) sd (range wd) frame
              [] sb st1 L1) as (st2 & E2 & G2).
  exists st2. split; [| exact (grown_trans_nil_r _ _ _ _ G1 G2)].
  unfold bind at 1. rewrite E2.
  destruct (project parse_numeric frame tb sd (range wd) sb)
    as [e | [ps final]]; reflexivity.
Qed.

(** A reference that denotes no DataFrame: the call fails at once. *)
Lemma run_simulation_engine_missing sb tb (l : loc) sd wd st :
  heap st !! l = None ->
  exists st',
    run_simulation_engine parse_numeric sb tb l sd wd st
    = (st', inl AttributeError)
    /\ grown st st' [EvEngine l].
Proof.
  intros Hl. unfold run_simulation_engine.
  unfold bind at 1. unfold emit at 1.
  set (st0 := {| heap := heap st; trace := trace st ++ [EvEngine l] |}).
  assert (L0 : heap st0 !! l = None) by exact Hl.
  unfold bind at 1. rewrite (DataFrame_copy_missing _ _ L0).
  exists st0. split; [reflexivity | apply grown_emit].
Qed.

(** In every case the engine records its run and nothing else, and
    only adds objects to the store. *)
Lemma run_simulation_engine_grown sb tb (l : loc) sd wd st :
  grown st (fst (run_simulation_engine parse_numeric sb tb l sd wd st))
    [EvEngine l].
Proof.
  destruct (heap st !! l) as [frame |] eqn:Hl.
  - destruct (run_simulation_engine_run sb tb l sd wd st frame Hl)
      as (st' & E & G). rewrite E. exact G.
  - destruct (run_simulation_engine_missing sb tb l sd wd st Hl)
      as (st' & E & G). rewrite E. exact G.
Qed.

(** *** The rows of a projection *)

Lemma project_length frame tb sd offsets :
  forall bal ps final,
  project parse_numeric frame tb sd offsets bal = inr (ps, final) ->
  length ps = length offsets.
Proof.
  induction offsets as [| k offsets IH]; intros bal ps final H;
    simpl in H.
  - injection H as <- _. reflexivity.
  - destruct (day_totals parse_numeric frame (Calendar.add_days sd k))
      as [e | totals]; [discriminate |].
    destruct (project parse_numeric frame tb sd offsets _)
      as [e | [ps' final']] eqn:E; [discriminate |].
    injection H as <- _. simpl. f_equal. exact (IH _ _ _ E).
Qed.

(** Every row is the projection of its day from some carried
    balance. *)
Lemma project_lookup frame tb sd offsets :
  forall bal ps final (i : nat) p,
  project parse_numeric frame tb sd offsets bal = inr (ps, final) ->
  ps !! i = Some p ->
  exists k totals b,
    offsets !! i = Some k
    /\ day_totals parse_numeric frame (Calendar.add_days sd k)
       = inr totals
    /\ p = projection tb (Calendar.add_days sd k) b totals.
Proof.
  induction offsets as [| k offsets IH]; intros bal ps final i p H Hi;
    simpl in H.
  - injection H as <- _. discriminate.
  - destruct (day_totals parse_numeric frame (Calendar.add_days sd k))
      as [e | totals] eqn:Ht; [discriminate |].
    destruct (project parse_numeric frame tb sd offsets _)
      as [e | [ps' final']] eqn:E; [discriminate |].
    injection H as <- _. destruct i as [| i]; simpl in Hi.
    + injection Hi as <-. exists k, totals, bal. auto.
    + exact (IH _ _ _ _ _ E Hi).
Qed.

(** The first row starts from the balance carried in, and every later
    row from the end balance of the row before it. *)
Lemma project_first frame tb sd offsets bal ps final p :
  project parse_numeric frame tb sd offsets bal = inr (ps, final) ->
  ps !! 0%nat = Some p -> start_balance p = bal.
Proof.
  destruct offsets as [| k offsets]; simpl; intros H Hp.
  - injection H as <- _. discriminate.
  - destruct (day_totals parse_numeric frame (Calendar.add_days sd k))
      as [e | totals]; [discriminate |].
    destruct (project parse_numeric frame tb sd offsets _)
      as [e | [ps' final']]; [discriminate |].
    injection H as <- _. injection Hp as <-. reflexivity.
Qed.

Lemma project_chain frame tb sd offsets :
  forall bal ps final (i : nat) p p',
  project parse_numeric frame tb sd offsets bal = inr (ps, final) ->
  ps !! i = Some p -> ps !! S i = Some p' ->
  start_balance p' = end_balance p.
Proof.
  induction offsets as [| k offsets IH];
    intros bal ps final i p p' H Hp Hp'; simpl in H.
  - injection H as <- _. discriminate.
  - destruct (day_totals parse_numeric frame (Calendar.add_days sd k))
      as [e | totals]; [discriminate |].
    destruct (project parse_numeric frame tb sd offsets _)
      as [e | [ps' final']] eqn:E; [discriminate |].
    injection H as <- _. destruct i as [| i]; simpl in Hp, Hp'.
    + injection Hp as <-. exact (project_first _ _ _ _ _ _ _ _ E Hp').
    + exact (IH _ _ _ _ _ _ E Hp Hp').
Qed.

(** A ledger whose dates are timestamps and whose amounts all convert
    is projected without error, over any offsets. *)
Lemma project_total frame tb sd offsets amounts :
  is_datetime64_any_dtype (map tx_date frame) = true ->
  to_numeric parse_numeric (map tx_amount frame) = inr amounts ->
  forall bal, exists ps final,
    project parse_numeric frame tb sd offsets bal = inr (ps, final).
Proof.
  intros Hd Hn. induction offsets as [| k offsets IH]; intros bal;
    cbn [project].
  - eexists _, _; reflexivity.
  - assert (exists totals,
              day_totals parse_numeric frame (Calendar.add_days sd k)
              = inr totals) as [totals ->].
    { unfold day_totals. destruct (dt_date_ok _ Hd) as [ds ->].
      destruct (empty _); [eexists; reflexivity |].
      destruct (to_numeric_filter parse_numeric
                  (on_day (Calendar.add_days sd k)) frame amounts Hn)
        as [qs Hqs].
      unfold transactions_on. rewrite Hqs. eexists; reflexivity. }
    destruct (IH (end_balance
                    (projection tb (Calendar.add_days sd k) bal totals)))
      as (ps & final & E).
    cbv zeta. rewrite E. eexists _, _; reflexivity.
Qed.

End WithParser.

End EngineFacts.

(* ===================================================================== *)
(** ** Dates, numbers and strings *)
(* ===================================================================== *)

Module CalendarFacts.
Import Calendar.

Lemma date_eqb_eq a b : date_eqb a b = true <-> a = b.
Proof.
  destruct a as [x], b as [y]; unfold date_eqb; simpl.
  rewrite Z.eqb_eq. split; [intros -> | intros [= ->]]; reflexivity.
Qed.

Lemma date_eqb_refl a : date_eqb a a = true.
Proof. apply date_eqb_eq. reflexivity. Qed.

Lemma add_days_0 d : add_days d 0 = d.
Proof. destruct d; unfold add_days; simpl. f_equal. lia. Qed.

Lemma add_days_add d j k : add_days (add_days d j) k = add_days d (j + k).
Proof. unfold add_days; simpl. f_equal. lia. Qed.

Lemma toordinal_add_days d k : toordinal (add_days d k) = toordinal d + k.
Proof. reflexivity. Qed.

Example ord_2024_01_01 : toordinal (mkdate 2024 1 1) = 738886.
Proof. reflexivity. Qed.

Example ymd_2024_02_29 :
  _ord2ymd (toordinal (add_days (mkdate 2024 1 31) 29)) = (2024, 2, 29).
Proof. reflexivity. Qed.

Example ymd_2023_12_31 :
  _ord2ymd (toordinal (add_days (mkdate 2024 1 1) (-1))) = (2023, 12, 31).
Proof. reflexivity. Qed.

Example ymd_2100_03_01 :
  _ord2ymd (toordinal (add_days (mkdate 2100 2 28) 1)) = (2100, 3, 1).
Proof. reflexivity. Qed.

End CalendarFacts.

Module NumericFacts.
Import Numeric.

Local Open Scope Q_scope.

Lemma Qltb_lt a b : Qltb a b = true <-> a < b.
Proof.
  unfold Qltb. rewrite negb_true_iff.
  destruct (Qle_bool b a) eqn:E.
  - apply Qle_bool_iff in E. split; [discriminate | intros H; lra].
  - split; [intros _ | reflexivity].
    destruct (Qlt_le_dec a b) as [H | H]; [exact H |].
    apply Qle_bool_iff in H. congruence.
Qed.

Lemma Qltb_ge a b : Qltb a b = false <-> b <= a.
Proof.
  unfold Qltb. rewrite negb_false_iff. apply Qle_bool_iff.
Qed.

Lemma Qleb_le a b : Qleb a b = true <-> a <= b.
Proof. apply Qle_bool_iff. Qed.

Lemma Qleb_gt a b : Qleb a b = false <-> b < a.
Proof.
  unfold Qleb. destruct (Qle_bool a b) eqn:E.
  - apply Qle_bool_iff in E. split; [discriminate | intros H; lra].
  - split; [intros _ | reflexivity].
    destruct (Qlt_le_dec b a) as [H | H]; [exact H |].
    apply Qle_bool_iff in H. congruence.
Qed.

Lemma pymax_nonneg b : 0 <= pymax 0 b.
Proof.
  unfold pymax. destruct (Qltb 0 b) eqn:E; [| lra].
  apply Qltb_lt in E. lra.
Qed.

Lemma pymax_ge_r a b : b <= pymax a b.
Proof.
  unfold pymax. destruct (Qltb a b) eqn:E; [lra |].
  apply Qltb_ge in E. exact E.
Qed.

Example format_positive : format_2f 2500 = "2500.00"%string.
Proof. reflexivity. Qed.

Example format_negative : format_2f (-50) = "-50.00"%string.
Proof. reflexivity. Qed.

Example format_tie_to_even : format_2f (1 # 8) = "0.12"%string.
Proof. reflexivity. Qed.

Example format_round_up : format_2f (1999 # 1000) = "2.00"%string.
Proof. reflexivity. Qed.

Example format_small_negative : format_2f (- (1 # 1000)) = "-0.00"%string.
Proof. reflexivity. Qed.

(** [pymax] is the maximum of the rationals. *)
Lemma pymax_Qmax a b : pymax a b = Qmax a b.
Proof.
  unfold pymax, Qmax, GenericMinMax.gmax.
  destruct (Qcompare a b) eqn:C; destruct (Qltb a b) eqn:E;
    try reflexivity.
  - apply Qltb_lt in E. apply Qeq_alt in C. lra.
  - apply Qltb_ge in E. apply Qlt_alt in C. lra.
  - apply Qltb_lt in E. apply Qgt_alt in C. lra.
Qed.

Lemma min_from_le m s : min_from m s <= m.
Proof.
  revert m. induction s as [| x s IH]; intros m; simpl; [lra |].
  destruct (Qltb x m) eqn:E.
  - apply Qltb_lt in E. specialize (IH x). lra.
  - apply IH.
Qed.

Lemma min_from_lower m s x : In x s -> min_from m s <= x.
Proof.
  revert m. induction s as [| y s IH]; intros m Hin; simpl in *; [tauto |].
  destruct Hin as [-> | Hin]; [| apply IH; exact Hin].
  pose proof (min_from_le (if Qltb x m then x else m) s) as H.
  destruct (Qltb x m) eqn:E; [exact H |].
  apply Qltb_ge in E. lra.
Qed.

Lemma min_from_in m s : min_from m s = m \/ In (min_from m s) s.
Proof.
  revert m. induction s as [| y s IH]; intros m; simpl; [auto |].
  destruct (IH (if Qltb y m then y else m)) as [H | H]; [| auto].
  rewrite H. destruct (Qltb y m); auto.
Qed.

(** [Series_min] returns an element of the series that no element is
    below. *)
Lemma Series_min_spec s :
  s <> [] ->
  exists lowest,
    Series_min s = Some lowest
    /\ In lowest s
    /\ (forall x, In x s -> lowest <= x).
Proof.
  destruct s as [| x s]; [congruence | intros _].
  exists (min_from x s). split; [reflexivity |]. split.
  - destruct (min_from_in x s) as [-> | H]; simpl; auto.
  - intros y [<- | Hy]; [apply min_from_le | apply min_from_lower, Hy].
Qed.

End NumericFacts.

Module StringFacts.
Import Numeric Pandas Simulator Reference.

Local Open Scope string_scope.


Lemma last_char_none s : last_char s = None -> s = "".
Proof.
  induction s as [| c s IH]; [reflexivity |].
  simpl. destruct s; [discriminate |]. intros H.
  specialize (IH H). discriminate.
Qed.













End StringFacts.

(* ===================================================================== *)
(** ** Properties of [run_simulation_engine] *)
(* ===================================================================== *)

Module EngineClaims.
Import Numeric Pandas Simulator Reference.
Import PandasFacts StoreFacts EngineFacts NumericFacts StringFacts.

Local Open Scope Q_scope.

Section WithParser.

Variable parse_numeric : string -> option Q.

(** A run that returns has read a ledger, and its rows are the
    projection of that ledger over the days of the window. *)
Lemma engine_returns sb tb (l : loc) sd wd st st' res :
  run_simulation_engine parse_numeric sb tb l sd wd st = (st', inr res) ->
  exists frame final,
    heap st !! l = Some frame
    /\ project parse_numeric frame tb sd (range wd) sb = inr (res, final).
Proof.
  intros H. destruct (heap st !! l) as [frame |] eqn:Hl.
  - destruct (run_simulation_engine_run parse_numeric sb tb l sd wd st
                frame Hl) as (st1 & E & _).
    rewrite E in H.
    destruct (project parse_numeric frame tb sd (range wd) sb)
      as [e | [ps final]] eqn:P; [discriminate |].
    injection H as _ <-. exists frame, final. split; [reflexivity | exact P].
  - destruct (run_simulation_engine_missing parse_numeric sb tb l sd wd
                st Hl) as (st1 & E & _).
    rewrite E in H. discriminate.
Qed.

Lemma engine_row sb tb (l : loc) sd wd st st' res frame (i : nat) p :
  run_simulation_engine parse_numeric sb tb l sd wd st = (st', inr res) ->
  heap st !! l = Some frame ->
  res !! i = Some p ->
  exists totals b,
    (Z.of_nat i < wd)%Z
    /\ day_totals parse_numeric frame
         (Calendar.add_days sd (Z.of_nat i)) = inr totals
    /\ p = projection tb (Calendar.add_days sd (Z.of_nat i)) b totals.
Proof.
  intros H Hl Hp.
  destruct (engine_returns _ _ _ _ _ _ _ _ H) as (frame' & final & Hl' & E).
  rewrite Hl in Hl'. injection Hl' as <-.
  pose proof (project_length _ _ _ _ _ _ _ _ E) as Hlen.
  rewrite range_length in Hlen.
  pose proof (lookup_lt_Some _ _ _ Hp) as Hi.
  destruct (project_lookup _ _ _ _ _ _ _ _ _ _ E Hp)
    as (k & totals & b & Hk & Ht & ->).
  rewrite range_lookup in Hk by lia. injection Hk as <-.
  exists totals, b. split; [lia | auto].
Qed.

(** C2: in the result of a run over a positive window, the first day
    starts from the given start balance and, for every [i] in
    [0, window_days - 2], day [i + 1] starts from the end balance of
    day [i]. *)
Theorem balance_chaining sb tb (l : loc) sd wd st st' res :
  (0 < wd)%Z ->
  run_simulation_engine parse_numeric sb tb l sd wd st = (st', inr res) ->
  (exists first, res !! 0%nat = Some first /\ start_balance first = sb)
  /\ (forall i : nat, (Z.of_nat i <= wd - 2)%Z ->
        exists p p',
          res !! i = Some p /\ res !! S i = Some p'
          /\ start_balance p' = end_balance p).
Proof.
  intros Hwd H.
  destruct (engine_returns _ _ _ _ _ _ _ _ H) as (frame & final & Hl & E).
  pose proof (project_length _ _ _ _ _ _ _ _ E) as Hlen.
  rewrite range_length in Hlen. split.
  - destruct (lookup_lt_is_Some_2 res 0%nat) as [first Hf]; [lia |].
    exists first. split; [exact Hf |].
    exact (project_first _ _ _ _ _ _ _ _ _ E Hf).
  - intros i Hi.
    destruct (lookup_lt_is_Some_2 res i) as [p Hp]; [lia |].
    destruct (lookup_lt_is_Some_2 res (S i)) as [p' Hp']; [lia |].
    exists p, p'. split; [exact Hp |]. split; [exact Hp' |].
    exact (project_chain _ _ _ _ _ _ _ _ _ _ _ E Hp Hp').
Qed.


(** C6, as the code has it: with [window_days <= 0] the engine raises
    nothing; it computes no day and returns an empty result, and the
    only trace it leaves is its private copy of the ledger. *)
Theorem empty_window_returns_no_rows sb tb (l : loc) sd wd st frame :
  (wd <= 0)%Z ->
  heap st !! l = Some frame ->
  run_simulation_engine parse_numeric sb tb l sd wd st
  = ({| heap := heap st ++ [frame]; trace := trace st ++ [EvEngine l] |},
     inr []).
Proof.
  intros Hwd Hl. unfold run_simulation_engine.
  rewrite (range_nonpos _ Hwd).
  unfold bind at 1. unfold emit at 1.
  unfold bind at 1.
  rewrite (DataFrame_copy_found
             {| heap := heap st; trace := trace st ++ [EvEngine l] |}
             l frame Hl).
  reflexivity.
Qed.


(** C8: over a positive window the result has exactly [window_days]
    rows, row [i] is dated [start_date + i] days, and consecutive rows
    are one day apart.  A ledger whose dates are timestamps and whose
    amounts all convert does yield such a result. *)
Theorem result_days sb tb (l : loc) sd wd st frame :
  (0 < wd)%Z ->
  heap st !! l = Some frame ->
  (forall st' res,
     run_simulation_engine parse_numeric sb tb l sd wd st
     = (st', inr res) ->
     Z.of_nat (length res) = wd
     /\ (forall i : nat, (Z.of_nat i < wd)%Z ->
           exists p,
             res !! i = Some p
             /\ date p
                = Timestamp_of_date (Calendar.add_days sd (Z.of_nat i)))
     /\ (forall (i : nat) p p',
           res !! i = Some p -> res !! S i = Some p' ->
           Calendar.toordinal (ts_date (date p'))
           = (Calendar.toordinal (ts_date (date p)) + 1)%Z))
  /\ (is_datetime64_any_dtype (map tx_date frame) = true ->
      (exists amounts,
         to_numeric parse_numeric (map tx_amount frame) = inr amounts) ->
      exists st' res,
        run_simulation_engine parse_numeric sb tb l sd wd st
        = (st', inr res)).
Proof.
  intros Hwd Hl. split.
  - intros st' res H.
    destruct (engine_returns _ _ _ _ _ _ _ _ H)
      as (frame' & final & _ & E).
    pose proof (project_length _ _ _ _ _ _ _ _ E) as Hlen.
    rewrite range_length in Hlen.
    assert (Hdate : forall (i : nat) p, res !! i = Some p ->
              date p
              = Timestamp_of_date (Calendar.add_days sd (Z.of_nat i))).
    { intros i p Hp.
      destruct (engine_row _ _ _ _ _ _ _ _ _ _ _ H Hl Hp)
        as (totals & b & _ & _ & ->). reflexivity. }
    split; [lia |]. split.
    + intros i Hi.
      destruct (lookup_lt_is_Some_2 res i) as [p Hp]; [lia |].
      exists p. split; [exact Hp | exact (Hdate _ _ Hp)].
    + intros i p p' Hp Hp'.
      rewrite (Hdate _ _ Hp), (Hdate _ _ Hp'). simpl. lia.
  - intros Hd [amounts Hn].
    destruct (project_total parse_numeric frame tb sd (range wd) amounts
                Hd Hn sb) as (ps & final & E).
    destruct (run_simulation_engine_run parse_numeric sb tb l sd wd st
                frame Hl) as (st' & E' & _).
    rewrite E in E'. exists st', ps. exact E'.
Qed.

End WithParser.

End EngineClaims.

(* ===================================================================== *)
(** ** The transfer advisor and the orchestrator *)
(* ===================================================================== *)

Module ReportFacts.
Import Numeric Pandas Simulator Reference.
Import PandasFacts StoreFacts EngineFacts NumericFacts.

Local Open Scope Q_scope.

(** The advisor, case by case. *)
Lemma advisor_run meb tb fut st :
  calculate_intelligent_transfer meb tb fut st
  = if Qleb (meb - tb) 0 then (st, inr 0)
    else ({| heap := heap st; trace := trace st ++ [EvSeriesMin] |},
          inr (pymax 0
                 (meb - tb
                  - match Series_min fut with
                    | Some lowest => pymax 0 (tb - lowest)
                    | None => 0
                    end))).
Proof.
  unfold calculate_intelligent_transfer.
  destruct (Qleb (meb - tb) 0); reflexivity.
Qed.

Lemma scan_events_nil ledger base : scan_events ledger base [].
Proof. exists 0%nat, []. split; [reflexivity | left; reflexivity]. Qed.

Lemma scan_events_min ledger base : scan_events ledger base [EvSeriesMin].
Proof. exists 1%nat, []. split; [reflexivity | left; reflexivity]. Qed.

Lemma scan_events_mins ledger base base' k evs :
  (base <= base')%nat ->
  scan_events ledger base' evs ->
  scan_events ledger base (repeat EvSeriesMin k ++ evs).
Proof.
  intros Hb (k' & tail & -> & Hi). exists (k + k')%nat, tail. split.
  - rewrite repeat_app, app_assoc. reflexivity.
  - destruct Hi as [-> | (v & n & -> & Hv & Hn)]; [left; reflexivity |].
    right. exists v, n. split; [reflexivity | lia].
Qed.

Section WithParsers.

Variable parse_numeric : string -> option Q.
Variable parse_datetime : string -> option Timestamp.

(** One pass through the scan loop either goes on, with the ledger
    and the result untouched and at most one evaluation of the
    minimum recorded, or ends the scan. *)
Lemma report_step_run sb tb sd wd i (ledger : loc) sim rec st :
  exists st' r evs,
    report_step parse_numeric sb tb sd wd i (ledger, sim, rec) st
    = (st', r)
    /\ grown st st' evs
    /\ ((exists rec',
           r = inr (Continue (ledger, sim, rec'))
           /\ (evs = [] \/ evs = [EvSeriesMin]))
        \/ ((forall s, r <> inr (Continue s))
            /\ scan_events ledger (length (heap st)) evs)).
Proof.
  unfold report_step. cbn [fst snd].
  unfold bind at 1. unfold lift at 1.
  destruct (iloc sim i) as [e | row] eqn:Hrow.
  { exists st, (inl e), []. split; [reflexivity |].
    split; [apply grown_refl |]. right.
    split; [discriminate | apply scan_events_nil]. }
  unfold bind at 1. unfold lift at 1.
  destruct (iloc sim (i + 1)) as [e | next_row] eqn:Hnext.
  { exists st, (inl e), []. split; [reflexivity |].
    split; [apply grown_refl |]. right.
    split; [discriminate | apply scan_events_nil]. }
  destruct (negb _) eqn:Hmonth.
  2:{ exists st, (inr (Continue (ledger, sim, rec))), [].
      split; [reflexivity |]. split; [apply grown_refl |]. left.
      exists rec. auto. }
  unfold bind at 1. unfold lift at 1.
  unfold bind at 1. rewrite advisor_run.
  destruct (Qleb _ 0) eqn:Hsurplus.
  { replace (Qltb 0 0) with false by reflexivity.
    exists st, (inr (Continue (ledger, sim, 0))), [].
    split; [reflexivity |]. split; [apply grown_refl |]. left.
    exists 0. auto. }
  set (st1 := {| heap := heap st; trace := trace st ++ [EvSeriesMin] |}).
  assert (G1 : grown st st1 [EvSeriesMin]) by apply grown_emit.
  match goal with |- context [Qltb 0 ?x] => set (amount := x) end.
  destruct (Qltb 0 amount) eqn:Hpos.
  2:{ exists st1, (inr (Continue (ledger, sim, amount))), [EvSeriesMin].
      split; [reflexivity |]. split; [exact G1 |]. left.
      exists amount. auto. }
  unfold bind at 1. unfold alloc at 1.
  match goal with
  | |- context [bind (pd_concat _) _ ?s] => set (st2 := s)
  end.
  assert (G2 : grown st st2 [EvSeriesMin])
    by (apply (grown_trans_nil_r _ _ _ _ G1); apply grown_alloc).
  unfold bind at 1. unfold pd_concat at 1.
  unfold bind at 1. cbn [load_all]. unfold bind at 1.
  destruct (heap st2 !! ledger) as [content |] eqn:Hledger.
  2:{ rewrite (load_missing _ _ Hledger).
      exists st2, (inl AttributeError), [EvSeriesMin].
      split; [reflexivity |]. split; [exact G2 |]. right.
      split; [discriminate | apply scan_events_min]. }
  rewrite (load_found _ _ _ Hledger).
  unfold bind at 1. unfold bind at 1.
  match goal with
  | |- context [load ?v st2] =>
      assert (Lv : exists row, heap st2 !! v = Some row)
        by (eexists; apply lookup_new);
      destruct Lv as [vrow Lv]; rewrite (load_found _ _ _ Lv)
  end.
  cbv beta iota delta [bind alloc emit ret].
  match goal with
  | |- context [run_simulation_engine _ _ _ _ _ _ ?s] => set (st3 := s)
  end.
  assert (G3 : grown st st3
                 [EvSeriesMin;
                  EvConcat [ledger; length (heap st1)]
                    (length (heap st2))]).
  { apply (grown_trans _ _ _ [EvSeriesMin] _ G2). split; simpl.
    - eexists. reflexivity.
    - reflexivity. }
  pose proof (run_simulation_engine_grown parse_numeric sb tb
                (length (heap st2)) sd wd st3) as G4.
  destruct (run_simulation_engine parse_numeric sb tb
              (length (heap st2)) sd wd st3) as [st4 r4].
  cbn [fst] in G4.
  pose proof (grown_trans _ _ _ _ _ G3 G4) as G.
  assert (S : scan_events ledger (length (heap st))
                ([EvSeriesMin;
                  EvConcat [ledger; length (heap st1)]
                    (length (heap st2))] ++ [EvEngine (length (heap st2))])).
  { exists 1%nat, [EvConcat [ledger; length (heap st1)] (length (heap st2));
                   EvEngine (length (heap st2))].
    split; [reflexivity |]. right.
    exists (length (heap st1)), (length (heap st2)).
    split; [reflexivity |]. unfold st2, st1. simpl.
    rewrite length_app. simpl. lia. }
  destruct r4 as [e | sim'].
  - eexists st4, (inl e), _. split; [reflexivity |].
    split; [exact G |]. right. split; [discriminate | exact S].
  - eexists st4, _, _. split; [reflexivity |].
    split; [exact G |]. right. split; [discriminate | exact S].
Qed.

(** The scan loop records evaluations of the minimum and at most one
    injection, whatever the indices it runs over. *)
Lemma scan_run sb tb sd wd idxs (ledger : loc) sim :
  forall rec st,
  exists st' r evs,
    foreach_break idxs (report_step parse_numeric sb tb sd wd)
      (ledger, sim, rec) st = (st', r)
    /\ grown st st' evs
    /\ scan_events ledger (length (heap st)) evs.
Proof.
  induction idxs as [| i idxs IH]; intros rec st.
  - exists st, (inr (ledger, sim, rec)), [].
    split; [reflexivity |]. split; [apply grown_refl |].
    apply scan_events_nil.
  - cbn [foreach_break]. unfold bind at 1.
    destruct (report_step_run sb tb sd wd i ledger sim rec st)
      as (st1 & r1 & evs1 & E1 & G1 & [(rec' & -> & Hevs) | [Hstop S1]]).
    + rewrite E1.
      destruct (IH rec' st1) as (st2 & r2 & evs2 & E2 & G2 & S2).
      exists st2, r2, (evs1 ++ evs2)%list. split; [exact E2 |].
      split; [exact (grown_trans _ _ _ _ _ G1 G2) |].
      pose proof (grown_length _ _ _ G1) as Hlen.
      destruct Hevs as [-> | ->].
      * apply (scan_events_mins _ _ _ 0%nat _ Hlen S2).
      * apply (scan_events_mins _ _ _ 1%nat _ Hlen S2).
    + rewrite E1. destruct r1 as [e | [s | s]].
      * exists st1, (inl e), evs1. auto.
      * exfalso. exact (Hstop s eq_refl).
      * exists st1, (inr s), evs1. auto.
Qed.

(** The orchestrator works on a copy of the ledger allocated at the
    end of the store: it records nothing if the ledger cannot be
    normalised, and otherwise the initial run on the copy followed by
    the events of the scan. *)
Lemma generate_simulation_report_run sb tb (l : loc) sd wd st :
  exists evs,
    grown st
      (fst (generate_simulation_report parse_numeric parse_datetime
              sb tb l sd wd st)) evs
    /\ (evs = []
        \/ exists scan,
             evs = EvEngine (length (heap st)) :: scan
             /\ scan_events (length (heap st)) (length (heap st)) scan).
Proof.
  unfold generate_simulation_report. unfold bind at 1.
  destruct (heap st !! l) as [frame |] eqn:Hl.
  2:{ rewrite (DataFrame_copy_missing _ _ Hl). exists [].
      split; [apply grown_refl | left; reflexivity]. }
  rewrite (DataFrame_copy_found _ _ _ Hl).
  set (ledger := length (heap st)).
  set (st1 := {| heap := heap st ++ [frame]; trace := trace st |}).
  assert (G1 : grown st st1 []) by apply grown_alloc.
  assert (L1 : heap st1 !! ledger = Some frame) by apply lookup_new.
  unfold bind at 1. rewrite (load_found _ _ _ L1).
  unfold bind at 1.
  match goal with
  | |- context [?f st1] =>
      assert (N : exists st2 r2,
                 f st1 = (st2, r2)
                 /\ grown st st2 []
                 /\ exists frame2, heap st2 !! ledger = Some frame2)
  end.
  { destruct (negb _).
    - unfold bind at 1. unfold lift at 1.
      destruct (to_datetime parse_datetime (map tx_date frame))
        as [e | col].
      + exists st1, (inl e). eauto.
      + eexists _, _. split; [reflexivity |]. split.
        * apply grown_assign; [exact G1 | unfold ledger; lia].
        * eexists. simpl. unfold ledger. rewrite insert_new.
          apply lookup_new.
    - exists st1, (inr tt). eauto. }
  destruct N as (st2 & r2 & -> & G2 & frame2 & L2).
  destruct r2 as [e | []].
  { exists []. split; [exact G2 | left; reflexivity]. }
  unfold bind at 1. rewrite (load_found _ _ _ L2).
  unfold bind at 1. unfold lift at 1.
  destruct (to_numeric parse_numeric (map tx_amount frame2))
    as [e | col].
  { exists []. split; [exact G2 | left; reflexivity]. }
  cbv beta iota delta [bind assign].
  match goal with
  | |- context [run_simulation_engine _ _ _ _ _ _ ?s] => set (st3 := s)
  end.
  assert (G3 : grown st st3 []).
  { apply grown_assign; [exact G2 | unfold ledger; lia]. }
  pose proof (run_simulation_engine_grown parse_numeric sb tb ledger
                sd wd st3) as G4.
  destruct (run_simulation_engine parse_numeric sb tb ledger sd wd st3)
    as [st4 [e | sim]]; cbn [fst] in G4.
  { exists [EvEngine ledger].
    split; [exact (grown_trans_nil _ _ _ _ G3 G4) |]. right.
    exists []. split; [reflexivity | apply scan_events_nil]. }
  destruct (scan_run sb tb sd wd
              (range (Z.of_nat (length sim) - 1)) ledger sim 0 st4)
    as (st5 & r5 & evs5 & E5 & G5 & S5).
  rewrite E5.
  pose proof (grown_trans _ _ _ _ _ (grown_trans_nil _ _ _ _ G3 G4) G5)
    as G.
  assert (Hbase : (ledger <= length (heap st4))%nat).
  { pose proof (grown_length _ _ _ G3). pose proof (grown_length _ _ _ G4).
    unfold ledger. lia. }
  assert (S : scan_events ledger ledger evs5)
    by exact (scan_events_mins _ _ _ 0%nat _ Hbase S5).
  exists ([EvEngine ledger] ++ evs5)%list.
  destruct r5 as [e | final]; (split; [exact G |]); right;
    exists evs5; split; try reflexivity; exact S.
Qed.

End WithParsers.

End ReportFacts.

(* ===================================================================== *)
(** ** Properties of the advisor and of [generate_simulation_report] *)
(* ===================================================================== *)

Module ReportClaims.
Import Numeric Pandas Simulator Reference.
Import PandasFacts StoreFacts EngineFacts NumericFacts ReportFacts.

Local Open Scope Q_scope.

(** C1: for a non-empty series of future balances the advisor returns
    0 when the surplus [month_end_balance - target_balance] is not
    positive, and otherwise
    [max(0, surplus - max(0, target_balance - min(future_balances)))],
    where the minimum is an element of the series below which no
    element lies.  The result can be 0 with a positive surplus. *)
Theorem advisor_result meb tb (fut : list Q) st :
  fut <> [] ->
  (exists lowest,
     Series_min fut = Some lowest
     /\ In lowest fut
     /\ (forall x, In x fut -> lowest <= x)
     /\ (meb - tb <= 0 ->
         snd (calculate_intelligent_transfer meb tb fut st) = inr 0)
     /\ (0 < meb - tb ->
         snd (calculate_intelligent_transfer meb tb fut st)
         = inr (Qmax 0 (meb - tb - Qmax 0 (tb - lowest)))))
  /\ (exists meb' tb' fut',
        fut' <> [] /\ 0 < meb' - tb'
        /\ snd (calculate_intelligent_transfer meb' tb' fut' st) = inr 0).
Proof.
  intros Hne. split.
  - destruct (Series_min_spec fut Hne) as (lowest & Hmin & Hin & Hlow).
    exists lowest. repeat split; auto.
    + intros Hs. rewrite advisor_run.
      apply Qleb_le in Hs. rewrite Hs. reflexivity.
    + intros Hs. rewrite advisor_run.
      apply Qleb_gt in Hs. rewrite Hs, Hmin.
      rewrite !pymax_Qmax. reflexivity.
  - exists 3000, 2500, [2000; 1500; 2500].
    split; [discriminate |]. split; [reflexivity |].
    rewrite advisor_run. reflexivity.
Qed.

(** C10: when the month-end balance does not exceed the target the
    advisor returns 0 and leaves the state as it was: no minimum of the
    future balances is taken, whatever they are, the empty series
    included. *)
Theorem no_surplus_ignores_future meb tb (fut : list Q) st :
  meb <= tb ->
  calculate_intelligent_transfer meb tb fut st = (st, inr 0)
  /\ calculate_intelligent_transfer meb tb [] st = (st, inr 0).
Proof.
  intros H. assert (Hs : Qleb (meb - tb) 0 = true) by (apply Qleb_le; lra).
  rewrite !advisor_run, Hs. split; reflexivity.
Qed.

Lemma filter_mins (f : Event -> bool) k :
  f EvSeriesMin = false -> List.filter f (repeat EvSeriesMin k) = [].
Proof.
  intros H. induction k as [| k IH]; simpl; [reflexivity |].
  rewrite H. exact IH.
Qed.

Section WithParsers.

Variable parse_numeric : string -> option Q.
Variable parse_datetime : string -> option Timestamp.

(** C5: what a call of the orchestrator records is a sequence of
    events without any concatenation and with at most one run of the
    engine, followed by nothing or by exactly one concatenation and
    one run of the engine on its result.  So at most one transaction
    is injected, the engine runs at most twice (once again after the
    injection), and nothing follows the re-run. *)
Theorem single_injection sb tb (l : loc) sd wd st :
  exists evs before after,
    grown st
      (fst (generate_simulation_report parse_numeric parse_datetime
              sb tb l sd wd st)) evs
    /\ evs = (before ++ after)%list
    /\ List.filter is_concat before = []
    /\ (length (List.filter is_engine before) <= 1)%nat
    /\ (after = []
        \/ exists frames new,
             after = [EvConcat frames new; EvEngine new])
    /\ (length (List.filter is_concat evs) <= 1)%nat
    /\ (length (List.filter is_engine evs) <= 2)%nat.
Proof.
  destruct (generate_simulation_report_run parse_numeric parse_datetime
              sb tb l sd wd st)
    as (evs & G & [-> | (scan & -> & k & tail & -> & Hinj)]).
  - exists [], [], []. split; [exact G |]. simpl.
    split; [reflexivity |]. split; [reflexivity |]. split; [lia |].
    split; [left; reflexivity |]. split; lia.
  - set (base := length (heap st)) in *.
    exists (EvEngine base :: repeat EvSeriesMin k ++ tail)%list,
           (EvEngine base :: repeat EvSeriesMin k)%list, tail.
    split; [exact G |]. split; [reflexivity |].
    assert (F1 : List.filter is_concat
                   (EvEngine base :: repeat EvSeriesMin k) = []).
    { simpl. apply filter_mins. reflexivity. }
    assert (F2 : List.filter is_engine
                   (EvEngine base :: repeat EvSeriesMin k)
                 = [EvEngine base]).
    { simpl. rewrite filter_mins by reflexivity. reflexivity. }
    split; [exact F1 |]. split; [rewrite F2; simpl; lia |].
    change (EvEngine base :: repeat EvSeriesMin k ++ tail)%list
      with ((EvEngine base :: repeat EvSeriesMin k) ++ tail)%list.
    rewrite !List.filter_app, F1, F2.
    destruct Hinj as [-> | (v & n & -> & _ & _)].
    + split; [left; reflexivity |]. simpl. lia.
    + split; [right; exists [base; v], n; reflexivity |]. simpl. lia.
Qed.

(** C9: every DataFrame that exists before a call of the engine or of
    the orchestrator is the same after it, whether the call returns
    or raises; and a concatenation recorded by the orchestrator takes
    only frames allocated during the call and yields a new frame. *)
Theorem ledger_not_mutated sb tb (l : loc) sd wd st (l' : loc) df :
  heap st !! l' = Some df ->
  heap (fst (run_simulation_engine parse_numeric sb tb l sd wd st)) !! l'
  = Some df
  /\ heap (fst (generate_simulation_report parse_numeric parse_datetime
                  sb tb l sd wd st)) !! l'
     = Some df
  /\ exists evs,
       grown st
         (fst (generate_simulation_report parse_numeric parse_datetime
                 sb tb l sd wd st)) evs
       /\ forall frames new,
            In (EvConcat frames new) evs ->
            (length (heap st) <= new)%nat
            /\ Forall (fun f => (length (heap st) <= f)%nat) frames.
Proof.
  intros Hl. split; [| split].
  - exact (grown_lookup _ _ _ _ _
             (run_simulation_engine_grown parse_numeric sb tb l sd wd st)
             Hl).
  - destruct (generate_simulation_report_run parse_numeric
                parse_datetime sb tb l sd wd st) as (evs & G & _).
    exact (grown_lookup _ _ _ _ _ G Hl).
  - destruct (generate_simulation_report_run parse_numeric
                parse_datetime sb tb l sd wd st)
      as (evs & G & [-> | (scan & -> & k & tail & -> & Hinj)]).
    + exists []. split; [exact G |]. intros frames new [].
    + eexists. split; [exact G |]. intros frames new Hin.
      destruct Hin as [Hin | Hin]; [discriminate |].
      apply in_app_or in Hin as [Hin | Hin].
      { apply repeat_spec in Hin. discriminate. }
      destruct Hinj as [-> | (v & n & -> & Hv & Hn)]; [destruct Hin |].
      destruct Hin as [Hin | [Hin | []]]; [| discriminate].
      injection Hin as <- <-. split; [exact Hn |].
      repeat constructor. exact Hv.
Qed.

End WithParsers.

End ReportClaims.

(* ===================================================================== *)
(** ** The theorems at work on sample ledgers *)
(* ===================================================================== *)

Module Scenarios.
Import Numeric Pandas Simulator Reference.
Import EngineClaims ReportClaims.

Local Open Scope Q_scope.

(** The advisor on the figures of the tests. *)
Example transfer_full_surplus st :
  snd (calculate_intelligent_transfer 5000 2500 [4000; 3500; 3000; 4500] st)
  = inr 2500.
Proof. reflexivity. Qed.

Example transfer_with_holdback st :
  snd (calculate_intelligent_transfer 5000 2500 [4000; 1500; 2000; 3500] st)
  = inr 1500.
Proof. reflexivity. Qed.

Example transfer_holdback_exceeds_surplus st :
  snd (calculate_intelligent_transfer 3000 2500 [2000; 1500; 2500] st)
  = inr 0.
Proof. reflexivity. Qed.

(** The second day of the tests' ledger: the rent brings the balance
    below the target. *)
Example rent_day :
  option_map (fun p => (alert_type p, transactions_summary p))
    (rows_of (sample_engine 10) !! 1%nat)
  = Some (BELOW_TARGET,
          "Rent: -1500.00, SYSTEM: Add funds (500.00)"%string).
Proof. vm_compute. reflexivity. Qed.

Example paycheck_day :
  option_map transactions_summary (rows_of (sample_engine 10) !! 4%nat)
  = Some "Paycheck: 2500.00, Spotify: -50.00"%string.
Proof. vm_compute. reflexivity. Qed.

Lemma advisor_result_witness :
  [3000; 4000] <> []
  /\ exists lowest,
       Series_min [3000; 4000] = Some lowest
       /\ (0 < 5000 - 2500 ->
           snd (calculate_intelligent_transfer 5000 2500 [3000; 4000]
                  (initial []))
           = inr (Qmax 0 (5000 - 2500 - Qmax 0 (2500 - lowest)))).
Proof.
  assert (H : [3000; 4000] <> []) by discriminate.
  split; [exact H |].
  destruct (advisor_result 5000 2500 [3000; 4000] (initial []) H)
    as [(lowest & Hmin & _ & _ & _ & Hpos) _].
  exists lowest. split; [exact Hmin | exact Hpos].
Defined.

Lemma no_surplus_ignores_future_witness :
  2000 <= 2500
  /\ calculate_intelligent_transfer 2000 2500 [] (initial [])
     = (initial [], inr 0).
Proof.
  assert (H : 2000 <= 2500) by (vm_compute; discriminate).
  split; [exact H |].
  exact (proj1 (no_surplus_ignores_future 2000 2500 [] (initial []) H)).
Defined.

Lemma sample_engine_returns :
  run_simulation_engine parse_decimal 2000 1000 0%nat
    (Calendar.mkdate 2024 1 1) 10 (initial sample_sim_transactions)
  = (sample_final, inr sample_rows).
Proof. vm_compute. reflexivity. Defined.

Lemma sample_ledger_found :
  heap (initial sample_sim_transactions) !! 0%nat
  = Some sample_sim_transactions.
Proof. reflexivity. Defined.

Lemma balance_chaining_witness :
  (0 < 10)%Z
  /\ (exists first,
        sample_rows !! 0%nat = Some first /\ start_balance first = 2000)
  /\ (forall i : nat, (Z.of_nat i <= 10 - 2)%Z ->
        exists p p',
          sample_rows !! i = Some p
          /\ sample_rows !! S i = Some p'
          /\ start_balance p' = end_balance p).
Proof.
  assert (H : (0 < 10)%Z) by lia.
  split; [exact H |].
  exact (balance_chaining parse_decimal 2000 1000 0%nat
           (Calendar.mkdate 2024 1 1) 10 (initial sample_sim_transactions)
           sample_final sample_rows H sample_engine_returns).
Defined.



Lemma result_days_witness :
  (0 < 10)%Z
  /\ Z.of_nat (length sample_rows) = 10%Z
  /\ exists st' res,
       run_simulation_engine parse_decimal 2000 1000 0%nat
         (Calendar.mkdate 2024 1 1) 10 (initial sample_sim_transactions)
       = (st', inr res).
Proof.
  assert (H : (0 < 10)%Z) by lia.
  split; [exact H |].
  destruct (result_days parse_decimal 2000 1000 0%nat
              (Calendar.mkdate 2024 1 1) 10
              (initial sample_sim_transactions) sample_sim_transactions
              H sample_ledger_found) as [T1 T2].
  split.
  - exact (proj1 (T1 sample_final sample_rows sample_engine_returns)).
  - apply T2; [reflexivity |].
    eexists. vm_compute. reflexivity.
Defined.

Lemma empty_window_witness :
  (-3 <= 0)%Z
  /\ run_simulation_engine parse_decimal 2000 1000 0%nat
       (Calendar.mkdate 2024 1 1) (-3) (initial sample_sim_transactions)
     = ({| heap := heap (initial sample_sim_transactions)
                   ++ [sample_sim_transactions];
           trace := trace (initial sample_sim_transactions)
                    ++ [EvEngine 0%nat] |},
        inr []).
Proof.
  assert (H : (-3 <= 0)%Z) by lia.
  split; [exact H |].
  exact (empty_window_returns_no_rows parse_decimal 2000 1000 0%nat
           (Calendar.mkdate 2024 1 1) (-3)
           (initial sample_sim_transactions) sample_sim_transactions
           H sample_ledger_found).
Defined.

(** C6, as stated, fails: on an empty or negative window the engine
    returns an empty result; no exception is raised. *)
Lemma no_error_on_empty_window :
  snd (sample_engine 0) = inr []
  /\ snd (sample_engine (-3)) = inr []
  /\ ~ (exists e, snd (sample_engine 0) = inl e).
Proof.
  split; [reflexivity |]. split; [reflexivity |].
  intros [e H]. discriminate H.
Qed.

(** The caller's ledger keeps its raw amounts through a whole report,
    while the orchestrator's copy, next to it in the store, has them
    converted. *)
Lemma ledger_not_mutated_witness :
  heap (initial sample_sim_transactions) !! 0%nat
  = Some sample_sim_transactions
  /\ heap (fst sample_report) !! 0%nat = Some sample_sim_transactions
  /\ option_map
       (forallb (fun r => match tx_amount r with
                          | ANum _ => true
                          | AStr _ => false
                          end))
       (heap (fst sample_report) !! 1%nat)
     = Some true.
Proof.
  split; [exact sample_ledger_found |]. split.
  - unfold sample_report.
    exact (proj1 (proj2
             (ledger_not_mutated parse_decimal parse_no_date 2000 1000
                0%nat (Calendar.mkdate 2024 1 1) 40
                (initial sample_sim_transactions) 0%nat
                sample_sim_transactions sample_ledger_found))).
  - vm_compute. reflexivity.
Defined.

(** C4 on a window with two month ends.  The first boundary of the
    initial result is at position 1 (January 31 to February 1) and the
    advice there is 0; the orchestrator goes on to the boundary of
    February 29, returns the advice of 500 computed there and injects
    the transfer on March 1. *)
Theorem later_boundary_overrides_first :
  exists sim0 sim amount,
    snd two_month_engine = inr sim0
    /\ first_month_boundary sim0 = Some 1%nat
    /\ first_boundary_advice 1000 sim0 = 0
    /\ snd two_month_report = inr (sim, amount)
    /\ amount == 500
    /\ ~ amount == first_boundary_advice 1000 sim0
    /\ option_map transactions_summary (sim !! 31%nat)
       = Some "Surplus Transfer: -500.00"%string
    /\ trace (fst two_month_report)
       = [EvEngine 1%nat; EvSeriesMin; EvConcat [1%nat; 44%nat] 45%nat;
          EvEngine 45%nat].
Proof.
  eexists _, _, _.
  split; [vm_compute; reflexivity |].
  split; [vm_compute; reflexivity |].
  split; [vm_compute; reflexivity |].
  split; [vm_compute; reflexivity |].
  split; [vm_compute; reflexivity |].
  split; [vm_compute; discriminate |].
  split; vm_compute; reflexivity.
Qed.

End Scenarios.

(* ===================================================================== *)
(** ** The window of a run: sums, days and rows *)
(* ===================================================================== *)

Module WindowFacts.
Import Numeric Pandas Simulator Reference Behaviour.
Import PandasFacts StoreFacts EngineFacts NumericFacts CalendarFacts.

Local Open Scope Q_scope.

(** *** Sums of columns *)








(** *** The offsets of a window *)

Lemma range_in n k : In k (range n) <-> (0 <= k < n)%Z.
Proof.
  unfold range. rewrite in_map_iff. split.
  - intros (i & <- & Hi). apply in_seq in Hi. lia.
  - intros H. exists (Z.to_nat k). split; [lia |]. apply in_seq. lia.
Qed.


Lemma range_pos n : (0 < n)%Z -> exists rest, range n = 0%Z :: rest.
Proof.
  intros H. unfold range.
  destruct (Z.to_nat n) as [| m] eqn:E; [lia |].
  simpl. eexists; reflexivity.
Qed.

Lemma range_add a b :
  (0 <= a)%Z -> (0 <= b)%Z ->
  range (a + b) = range a ++ map (Z.add a) (range b).
Proof.
  intros Ha Hb. unfold range.
  rewrite Z2Nat.inj_add, seq_app, map_app by lia. f_equal.
  rewrite map_map.
  assert (G : forall m s,
            map Z.of_nat (seq (s + Z.to_nat a) m)
            = map (fun x => (a + Z.of_nat x)%Z) (seq s m)).
  { induction m as [| m IH]; intros s; simpl; [reflexivity |].
    f_equal; [lia |]. apply (IH (S s)). }
  apply (G _ 0%nat).
Qed.


(** *** Rows and days *)

Lemma on_day_offset sd k r :
  on_day (Calendar.add_days sd k) r
  = match tx_date r with
    | DStamp t =>
        (k =? Calendar.toordinal (ts_date t) - Calendar.toordinal sd)%Z
    | DStr _ => false
    end.
Proof.
  unfold on_day, Calendar.date_eqb, Calendar.add_days. simpl.
  destruct (tx_date r) as [s | t]; [reflexivity |].
  destruct (_ =? _)%Z eqn:E1, (k =? _)%Z eqn:E2; try reflexivity; zbool; lia.
Qed.

Lemma in_window_offset sd wd r :
  in_window sd wd r
  = match tx_date r with
    | DStamp t =>
        let k0 := (Calendar.toordinal (ts_date t)
                   - Calendar.toordinal sd)%Z in
        ((0 <=? k0) && (k0 <? wd))%Z
    | DStr _ => false
    end.
Proof.
  unfold in_window. destruct (tx_date r) as [s | t]; [reflexivity |].
  cbv zeta.
  destruct (_ <=? _)%Z eqn:E1, (_ <? _ + _)%Z eqn:E2,
    (0 <=? _)%Z eqn:E3, (_ - _ <? wd)%Z eqn:E4; simpl;
    try reflexivity; zbool; lia.
Qed.

Lemma on_day_in_window sd wd k r :
  (0 <= k < wd)%Z ->
  on_day (Calendar.add_days sd k) r = true -> in_window sd wd r = true.
Proof.
  intros Hk. rewrite on_day_offset, in_window_offset.
  destruct (tx_date r) as [s | t]; [discriminate |].
  intros H. apply Z.eqb_eq in H. cbv zeta.
  apply andb_true_iff. split; [apply Z.leb_le | apply Z.ltb_lt]; lia.
Qed.

Lemma transactions_on_window sd wd k (frame : DataFrame) :
  (0 <= k < wd)%Z ->
  transactions_on (List.filter (in_window sd wd) frame)
    (Calendar.add_days sd k)
  = transactions_on frame (Calendar.add_days sd k).
Proof.
  intros Hk. unfold transactions_on.
  induction frame as [| r frame IH]; simpl; [reflexivity |].
  destruct (in_window sd wd r) eqn:W; simpl.
  - rewrite IH. reflexivity.
  - destruct (on_day (Calendar.add_days sd k) r) eqn:D; [| exact IH].
    rewrite (on_day_in_window _ _ _ _ Hk D) in W. discriminate.
Qed.


Lemma datetime_filter (f : Row -> bool) (frame : DataFrame) :
  is_datetime64_any_dtype (map tx_date frame) = true ->
  is_datetime64_any_dtype (map tx_date (List.filter f frame)) = true.
Proof.
  unfold is_datetime64_any_dtype.
  induction frame as [| r frame IH]; simpl; [reflexivity |].
  intros H. apply andb_true_iff in H as [Hr H].
  destruct (f r); simpl; [rewrite Hr |]; auto.
Qed.

Lemma datetime_app (f1 f2 : DataFrame) :
  is_datetime64_any_dtype (map tx_date (f1 ++ f2))
  = (is_datetime64_any_dtype (map tx_date f1)
     && is_datetime64_any_dtype (map tx_date f2))%bool.
Proof.
  unfold is_datetime64_any_dtype. rewrite map_app. apply forallb_app.
Qed.

Lemma dt_date_fails col :
  is_datetime64_any_dtype col = false -> dt_date col = inl AttributeError.
Proof.
  induction col as [| c col IH]; simpl; [discriminate |].
  destruct c as [s | t]; [reflexivity |]. simpl. intros H.
  rewrite (IH H). reflexivity.
Qed.

(** *** Conversion of the amount column *)


Lemma to_numeric_error parse col e :
  to_numeric parse col = inl e -> e = ValueError.
Proof.
  induction col as [| c col IH]; simpl; [discriminate |].
  destruct (match c with ANum q => Some q | AStr s => parse s end);
    [| intros [= <-]; reflexivity].
  destruct (to_numeric parse col); [| discriminate].
  intros [= <-]. apply IH. reflexivity.
Qed.

Lemma to_numeric_fails parse (rows : DataFrame) e :
  to_numeric parse (map tx_amount rows) = inl e ->
  exists r, In r rows /\ cell_value parse (tx_amount r) = None.
Proof.
  revert e. induction rows as [| r rows IH]; intros e; simpl;
    [discriminate |].
  destruct (match tx_amount r with ANum q => Some q | AStr s => parse s end)
    as [q |] eqn:Hq.
  - destruct (to_numeric parse (map tx_amount rows)) as [e' | qs];
      [| discriminate].
    intros _. destruct (IH e' eq_refl) as (r' & Hin & Hr').
    exists r'. auto.
  - intros _. exists r. auto.
Qed.

Lemma to_numeric_bad_row parse (rows : DataFrame) r :
  In r rows -> cell_value parse (tx_amount r) = None ->
  to_numeric parse (map tx_amount rows) = inl ValueError.
Proof.
  intros Hin Hr. induction rows as [| r' rows IH]; simpl; [destruct Hin |].
  destruct Hin as [-> | Hin].
  - unfold cell_value in Hr. rewrite Hr. reflexivity.
  - destruct (match tx_amount r' with ANum q => Some q | AStr s => parse s end);
      [| reflexivity].
    rewrite (IH Hin). reflexivity.
Qed.

(** Numbers convert to themselves. *)
Lemma to_numeric_with_amount parse (df : DataFrame) (qs : list Q) :
  length qs = length df ->
  to_numeric parse (map tx_amount (with_amount df qs)) = inr qs.
Proof.
  revert qs. induction df as [| r df IH]; intros [| q qs] H;
    simpl in *; try discriminate; [reflexivity |].
  unfold with_amount in IH. rewrite IH by lia. reflexivity.
Qed.

Lemma to_numeric_all parse (rows : DataFrame) :
  (forall r, In r rows -> cell_value parse (tx_amount r) <> None) ->
  exists qs, to_numeric parse (map tx_amount rows) = inr qs.
Proof.
  intros H.
  destruct (to_numeric parse (map tx_amount rows)) as [e | qs] eqn:E;
    [| eexists; reflexivity].
  destruct (to_numeric_fails _ _ _ E) as (r & Hin & Hr).
  destruct (H r Hin Hr).
Qed.

Lemma Qltb_proper a b c : a == b -> Qltb a c = Qltb b c.
Proof.
  intros H. destruct (Qltb b c) eqn:E.
  - apply Qltb_lt. apply Qltb_lt in E. lra.
  - apply Qltb_ge. apply Qltb_ge in E. lra.
Qed.

Section WithParser.

Variable parse_numeric : string -> option Q.

(** *** The totals of a day *)

Lemma day_totals_datetime (frame : DataFrame) day :
  is_datetime64_any_dtype (map tx_date frame) = true ->
  day_totals parse_numeric frame day
  = let rows := transactions_on frame day in
    if empty rows then inr (0, ""%string)
    else
      match to_numeric parse_numeric (map tx_amount rows) with
      | inl e => inl e
      | inr amounts =>
          inr (Series_sum amounts, base_summary rows amounts)
      end.
Proof.
  intros H. unfold day_totals. destruct (dt_date_ok _ H) as [ds ->].
  reflexivity.
Qed.

Lemma day_totals_error (frame : DataFrame) day e :
  is_datetime64_any_dtype (map tx_date frame) = true ->
  day_totals parse_numeric frame day = inl e -> e = ValueError.
Proof.
  intros H. rewrite (day_totals_datetime _ _ H). cbv zeta.
  destruct (empty _); [discriminate |].
  destruct (to_numeric _ _) as [e' | qs] eqn:E; [| discriminate].
  intros [= <-]. exact (to_numeric_error _ _ _ E).
Qed.


Lemma day_totals_window sd wd k (frame : DataFrame) :
  (0 <= k < wd)%Z ->
  is_datetime64_any_dtype (map tx_date frame) = true ->
  day_totals parse_numeric (List.filter (in_window sd wd) frame)
    (Calendar.add_days sd k)
  = day_totals parse_numeric frame (Calendar.add_days sd k).
Proof.
  intros Hk Hd.
  rewrite (day_totals_datetime _ _ Hd).
  rewrite (day_totals_datetime _ _ (datetime_filter _ _ Hd)).
  rewrite (transactions_on_window _ _ _ _ Hk). reflexivity.
Qed.

(** *** Projections *)

Lemma project_ext (f1 f2 : DataFrame) tb sd offsets :
  (forall k, In k offsets ->
     day_totals parse_numeric f1 (Calendar.add_days sd k)
     = day_totals parse_numeric f2 (Calendar.add_days sd k)) ->
  forall bal,
    project parse_numeric f1 tb sd offsets bal
    = project parse_numeric f2 tb sd offsets bal.
Proof.
  induction offsets as [| k offsets IH]; intros H bal; simpl;
    [reflexivity |].
  rewrite (H k) by (simpl; auto).
  destruct (day_totals parse_numeric f2 (Calendar.add_days sd k));
    [reflexivity |].
  rewrite IH by (intros k' Hk'; apply H; simpl; auto). reflexivity.
Qed.

Lemma project_window (frame : DataFrame) tb sd wd bal :
  is_datetime64_any_dtype (map tx_date frame) = true ->
  project parse_numeric (List.filter (in_window sd wd) frame) tb sd
    (range wd) bal
  = project parse_numeric frame tb sd (range wd) bal.
Proof.
  intros Hd. apply project_ext. intros k Hk.
  apply range_in in Hk. apply day_totals_window; assumption.
Qed.

Lemma project_app (frame : DataFrame) tb sd offs1 offs2 :
  forall bal,
    project parse_numeric frame tb sd (offs1 ++ offs2) bal
    = match project parse_numeric frame tb sd offs1 bal with
      | inl e => inl e
      | inr (ps1, mid) =>
          match project parse_numeric frame tb sd offs2 mid with
          | inl e => inl e
          | inr (ps2, final) => inr (ps1 ++ ps2, final)
          end
      end.
Proof.
  induction offs1 as [| k offs1 IH]; intros bal; simpl.
  - destruct (project parse_numeric frame tb sd offs2 bal)
      as [e | [ps2 final]]; reflexivity.
  - destruct (day_totals parse_numeric frame (Calendar.add_days sd k))
      as [e | totals]; [reflexivity |].
    rewrite IH.
    destruct (project parse_numeric frame tb sd offs1 _)
      as [e | [ps1 mid]]; [reflexivity |].
    destruct (project parse_numeric frame tb sd offs2 mid)
      as [e | [ps2 final]]; reflexivity.
Qed.

Lemma project_shift (frame : DataFrame) tb sd a offsets :
  forall bal,
    project parse_numeric frame tb sd (map (Z.add a) offsets) bal
    = project parse_numeric frame tb (Calendar.add_days sd a) offsets bal.
Proof.
  induction offsets as [| k offsets IH]; intros bal; simpl;
    [reflexivity |].
  rewrite add_days_add.
  destruct (day_totals parse_numeric frame (Calendar.add_days sd (a + k)))
    as [e | totals]; [reflexivity |].
  rewrite IH. reflexivity.
Qed.

(** The balance a projection hands on is the end balance of its last
    row. *)
Lemma project_final (frame : DataFrame) tb sd offsets :
  forall bal ps final,
    project parse_numeric frame tb sd offsets bal = inr (ps, final) ->
    final = closing_balance bal ps.
Proof.
  induction offsets as [| k offsets IH]; intros bal ps final H;
    simpl in H.
  - injection H as <- <-. reflexivity.
  - destruct (day_totals parse_numeric frame (Calendar.add_days sd k))
      as [e | totals]; [discriminate |].
    destruct (project parse_numeric frame tb sd offsets _)
      as [e | [ps' final']] eqn:E; [discriminate |].
    injection H as <- <-. rewrite (IH _ _ _ E).
    unfold closing_balance. rewrite last_cons.
    destruct (last ps'); reflexivity.
Qed.



(** A failing day makes the projection fail; with timestamps in the
    date column the only possible failure is a [ValueError]. *)
Lemma project_fails (frame : DataFrame) tb sd offsets k :
  is_datetime64_any_dtype (map tx_date frame) = true ->
  In k offsets ->
  day_totals parse_numeric frame (Calendar.add_days sd k)
  = inl ValueError ->
  forall bal,
    project parse_numeric frame tb sd offsets bal = inl ValueError.
Proof.
  intros Hd. induction offsets as [| k' offsets IH]; intros Hin Hk bal;
    [destruct Hin |]. simpl.
  destruct (day_totals parse_numeric frame (Calendar.add_days sd k'))
    as [e | totals] eqn:Ht.
  - rewrite (day_totals_error _ _ _ Hd Ht). reflexivity.
  - destruct Hin as [-> | Hin]; [congruence |].
    rewrite (IH Hin Hk). reflexivity.
Qed.

(** With timestamps in the date column a projection over the window
    succeeds exactly when the amounts of the window's rows convert. *)
Lemma project_window_outcome (frame : DataFrame) tb sd wd bal :
  is_datetime64_any_dtype (map tx_date frame) = true ->
  match to_numeric parse_numeric
          (map tx_amount (List.filter (in_window sd wd) frame)) with
  | inr _ =>
      exists ps final,
        project parse_numeric frame tb sd (range wd) bal
        = inr (ps, final)
  | inl _ =>
      project parse_numeric frame tb sd (range wd) bal = inl ValueError
  end.
Proof.
  intros Hd.
  destruct (to_numeric _ _) as [e | qs] eqn:Hn.
  - destruct (to_numeric_fails _ _ _ Hn) as (r & Hin & Hr).
    apply filter_In in Hin as [Hin Hw].
    pose proof Hw as Hw'. rewrite in_window_offset in Hw'.
    destruct (tx_date r) as [s | t] eqn:Hdate; [discriminate |].
    cbv zeta in Hw'. apply andb_true_iff in Hw' as [H1 H2].
    apply Z.leb_le in H1. apply Z.ltb_lt in H2.
    set (k := (Calendar.toordinal (ts_date t)
               - Calendar.toordinal sd)%Z) in *.
    apply (project_fails _ _ _ _ k Hd); [apply range_in; lia |].
    rewrite (day_totals_datetime _ _ Hd). cbv zeta.
    assert (Hon : In r (transactions_on frame (Calendar.add_days sd k))).
    { apply filter_In. split; [exact Hin |].
      rewrite on_day_offset, Hdate. apply Z.eqb_refl. }
    destruct (transactions_on frame (Calendar.add_days sd k))
      as [| r0 rows] eqn:Hrows; [destruct Hon |].
    cbn [empty]. rewrite (to_numeric_bad_row _ _ _ Hon Hr).
    reflexivity.
  - rewrite <- (project_window _ _ _ _ _ Hd).
    apply (project_total _ _ _ _ _ qs);
      [apply datetime_filter; exact Hd | exact Hn].
Qed.

(** The money fields of a projection do not depend on the target. *)
Lemma project_balances (frame : DataFrame) tb tb' sd offsets :
  forall bal,
    match project parse_numeric frame tb sd offsets bal,
          project parse_numeric frame tb' sd offsets bal with
    | inr (ps, final), inr (ps', final') =>
        map balances ps = map balances ps' /\ final = final'
    | inl e, inl e' => e = e'
    | _, _ => False
    end.
Proof.
  induction offsets as [| k offsets IH]; intros bal; simpl.
  - auto.
  - destruct (day_totals parse_numeric frame (Calendar.add_days sd k))
      as [e | totals]; [reflexivity |].
    simpl end_balance. specialize (IH (bal + fst totals)).
    destruct (project parse_numeric frame tb sd offsets _)
      as [e | [ps final]],
      (project parse_numeric frame tb' sd offsets _)
      as [e' | [ps' final']]; try exact IH.
    destruct IH as [IH ->]. split; [| reflexivity].
    simpl. rewrite IH. reflexivity.
Qed.



(** A ledger without rows: every day is flat. *)
Lemma project_quiet tb sd sb offsets :
  forall bal ps final (i : nat) p,
    project parse_numeric [] tb sd offsets bal = inr (ps, final) ->
    bal == sb ->
    ps !! i = Some p ->
    net_change p = 0
    /\ start_balance p == sb
    /\ end_balance p == sb
    /\ alert_type p = (if Qltb sb tb then BELOW_TARGET else OK)
    /\ transactions_summary p
       = (if Qltb sb tb then add_funds_note (tb - end_balance p)
          else ""%string).
Proof.
  induction offsets as [| k offsets IH]; intros bal ps final i p H Hb Hi;
    simpl in H.
  - injection H as <- _. discriminate.
  - destruct (project parse_numeric [] tb sd offsets _)
      as [e | [ps' final']] eqn:E; [discriminate |].
    injection H as <- _. destruct i as [| i]; simpl in Hi.
    + injection Hi as <-. unfold projection. simpl.
      assert (Hend : bal + 0 == sb) by (rewrite Hb; lra).
      rewrite (Qltb_proper _ _ tb Hend).
      split; [reflexivity |]. split; [exact Hb |].
      split; [exact Hend |].
      destruct (Qltb sb tb); split; reflexivity.
    + apply (IH _ _ _ i p E); [| exact Hi].
      rewrite Hb. lra.
Qed.

(** The outcome of a run of the engine on a ledger. *)
Lemma engine_outcome sb tb (l : loc) sd wd st frame :
  heap st !! l = Some frame ->
  snd (run_simulation_engine parse_numeric sb tb l sd wd st)
  = match project parse_numeric frame tb sd (range wd) sb with
    | inl e => inl e
    | inr (ps, _) => inr ps
    end.
Proof.
  intros Hl.
  destruct (run_simulation_engine_run parse_numeric sb tb l sd wd st
              frame Hl) as (st' & E & _).
  rewrite E. reflexivity.
Qed.

End WithParser.

End WindowFacts.

(* ===================================================================== *)
(** ** Further properties of [run_simulation_engine] *)
(* ===================================================================== *)

Module EngineProperties.
Import Numeric Pandas Simulator Reference Behaviour.
Import PandasFacts StoreFacts EngineFacts NumericFacts CalendarFacts.
Import WindowFacts.

Local Open Scope Q_scope.

Section WithParser.

Variable parse_numeric : string -> option Q.

(** X1: rows dated outside the window have no effect on a run.  On a
    ledger whose date column holds timestamps, the engine returns the
    same rows, or raises the same exception, as on the ledger cut
    down to the rows dated within
    [start_date, start_date + window_days - 1]. *)
Theorem engine_ignores_rows_outside_window sb tb (l l' : loc) sd wd
    st st' frame :
  heap st !! l = Some frame ->
  is_datetime64_any_dtype (map tx_date frame) = true ->
  heap st' !! l' = Some (List.filter (in_window sd wd) frame) ->
  snd (run_simulation_engine parse_numeric sb tb l sd wd st)
  = snd (run_simulation_engine parse_numeric sb tb l' sd wd st').
Proof.
  intros Hl Hd Hl'.
  rewrite (engine_outcome _ _ _ _ _ _ _ _ Hl).
  rewrite (engine_outcome _ _ _ _ _ _ _ _ Hl').
  rewrite (project_window _ _ _ _ _ _ Hd). reflexivity.
Qed.

(** X2: the engine converts the amounts of the window's rows and of
    no others.  On a ledger whose date column holds timestamps, a run
    returns if the amount of every row dated within the window
    converts, and raises [ValueError] if the amount of one of them
    does not; the amounts of rows dated outside the window are never
    looked at. *)
Theorem engine_converts_window_amounts_only sb tb (l : loc) sd wd st
    frame :
  heap st !! l = Some frame ->
  is_datetime64_any_dtype (map tx_date frame) = true ->
  ((forall r, In r frame -> in_window sd wd r = true ->
      cell_value parse_numeric (tx_amount r) <> None) ->
   exists res,
     snd (run_simulation_engine parse_numeric sb tb l sd wd st)
     = inr res)
  /\ ((exists r, In r frame /\ in_window sd wd r = true
                 /\ cell_value parse_numeric (tx_amount r) = None) ->
      snd (run_simulation_engine parse_numeric sb tb l sd wd st)
      = inl ValueError).
Proof.
  intros Hl Hd. rewrite (engine_outcome _ _ _ _ _ _ _ _ Hl).
  pose proof (project_window_outcome parse_numeric frame tb sd wd sb Hd)
    as O.
  split.
  - intros Hall.
    destruct (to_numeric_all parse_numeric
                (List.filter (in_window sd wd) frame)) as [qs Hqs].
    { intros r Hin. apply filter_In in Hin as [Hin Hw].
      exact (Hall r Hin Hw). }
    rewrite Hqs in O. destruct O as (ps & final & ->).
    eexists; reflexivity.
  - intros (r & Hin & Hw & Hr).
    assert (Hin' : In r (List.filter (in_window sd wd) frame))
      by (apply filter_In; auto).
    rewrite (to_numeric_bad_row _ _ _ Hin' Hr) in O.
    rewrite O. reflexivity.
Qed.


(** X4: a window without transactions.  On a ledger whose date column
    holds timestamps and that has no row dated within the window
    (all its rows are dated before the start date, say), the engine
    returns one row per day, every row with net change [0] and start
    and end balance equal to the start balance; all days carry the
    alert and the note if the start balance is below the target, and
    none does otherwise. *)
Theorem engine_quiet_window sb tb (l : loc) sd wd st frame :
  heap st !! l = Some frame ->
  is_datetime64_any_dtype (map tx_date frame) = true ->
  (forall r, In r frame -> in_window sd wd r = false) ->
  exists st' res,
    run_simulation_engine parse_numeric sb tb l sd wd st = (st', inr res)
    /\ length res = Z.to_nat wd
    /\ forall (i : nat) p,
         res !! i = Some p ->
         net_change p = 0
         /\ start_balance p == sb
         /\ end_balance p == sb
         /\ alert_type p = (if Qltb sb tb then BELOW_TARGET else OK)
         /\ transactions_summary p
            = (if Qltb sb tb then add_funds_note (tb - end_balance p)
               else ""%string).
Proof.
  intros Hl Hd Hnone.
  assert (Hf : List.filter (in_window sd wd) frame = []).
  { clear Hl Hd. induction frame as [| r frame' IH]; [reflexivity |].
    simpl. rewrite (Hnone r) by (simpl; auto).
    apply IH. intros r' Hr'. apply Hnone. simpl. auto. }
  destruct (run_simulation_engine_run parse_numeric sb tb l sd wd st
              frame Hl) as (st' & E & _).
  rewrite <- (project_window _ _ _ _ _ _ Hd), Hf in E.
  destruct (project_total parse_numeric [] tb sd (range wd) []
              eq_refl eq_refl sb) as (ps & final & P).
  rewrite P in E. exists st', ps. split; [exact E |].
  split.
  - rewrite (project_length _ _ _ _ _ _ _ _ P). apply range_length.
  - intros i p Hi.
    apply (project_quiet parse_numeric tb sd sb (range wd) sb ps final
             i p P); [reflexivity | exact Hi].
Qed.

(** X5: a run can be resumed.  Projecting [a + b] days from
    [start_date] gives the rows of the first [a] days followed by the
    rows of a run over [b] days that starts on [start_date + a] with
    the balance the first run ended with; if the second run raises,
    so does the long one, with the same exception. *)
Theorem engine_resumes sb tb (l l2 : loc) sd a b st st1 st2 res1 frame :
  (0 <= a)%Z -> (0 <= b)%Z ->
  heap st !! l = Some frame ->
  heap st2 !! l2 = Some frame ->
  run_simulation_engine parse_numeric sb tb l sd a st = (st1, inr res1) ->
  snd (run_simulation_engine parse_numeric sb tb l sd (a + b) st)
  = match snd (run_simulation_engine parse_numeric
                 (closing_balance sb res1) tb l2
                 (Calendar.add_days sd a) b st2) with
    | inr res2 => inr (res1 ++ res2)
    | inl e => inl e
    end.
Proof.
  intros Ha Hb Hl Hl2 H.
  pose proof (engine_outcome parse_numeric sb tb l sd a st frame Hl)
    as O.
  rewrite H in O. cbn [snd] in O.
  destruct (project parse_numeric frame tb sd (range a) sb)
    as [e | [ps1 mid]] eqn:P1; [discriminate |].
  injection O as ->.
  rewrite (engine_outcome _ _ _ _ _ _ _ _ Hl).
  rewrite (engine_outcome _ _ _ _ _ _ _ _ Hl2).
  rewrite (range_add _ _ Ha Hb), project_app, P1, project_shift.
  rewrite <- (project_final _ _ _ _ _ _ _ _ P1).
  destruct (project parse_numeric frame tb (Calendar.add_days sd a)
              (range b) mid) as [e | [ps2 final]]; reflexivity.
Qed.

(** X6: the target balance only decides the alerts.  Two runs on the
    same ledger that differ in the target balance alone raise the
    same exception or return rows with the same day, start balance,
    net change and end balance. *)
Theorem engine_balances_independent_of_target sb tb tb' (l : loc) sd wd
    st frame :
  heap st !! l = Some frame ->
  match snd (run_simulation_engine parse_numeric sb tb l sd wd st),
        snd (run_simulation_engine parse_numeric sb tb' l sd wd st) with
  | inr res, inr res' => map balances res = map balances res'
  | inl e, inl e' => e = e'
  | _, _ => False
  end.
Proof.
  intros Hl. rewrite !(engine_outcome _ _ _ _ _ _ _ _ Hl).
  pose proof (project_balances parse_numeric frame tb tb' sd (range wd)
                sb) as B.
  destruct (project parse_numeric frame tb sd (range wd) sb)
    as [e | [ps final]],
    (project parse_numeric frame tb' sd (range wd) sb)
    as [e' | [ps' final']]; try exact B.
  exact (proj1 B).
Qed.

(** X7: the engine needs a date column of timestamps.  On a ledger
    whose date column holds a string, a run over one day or more
    raises [AttributeError] (the [.dt] accessor), whatever the
    amounts and wherever the row is dated. *)
Theorem engine_needs_datetime_column sb tb (l : loc) sd wd st frame :
  (0 < wd)%Z ->
  heap st !! l = Some frame ->
  is_datetime64_any_dtype (map tx_date frame) = false ->
  snd (run_simulation_engine parse_numeric sb tb l sd wd st)
  = inl AttributeError.
Proof.
  intros Hwd Hl Hd. rewrite (engine_outcome _ _ _ _ _ _ _ _ Hl).
  destruct (range_pos wd Hwd) as [rest ->]. simpl.
  unfold day_totals. rewrite (dt_date_fails _ Hd). reflexivity.
Qed.

End WithParser.

End EngineProperties.

(* ===================================================================== *)
(** ** What the orchestrator returns *)
(* ===================================================================== *)

Module OutcomeFacts.
Import Numeric Pandas Simulator Reference Behaviour.
Import PandasFacts StoreFacts EngineFacts NumericFacts WindowFacts.
Import ReportFacts.

Local Open Scope Q_scope.

(** *** The advisor as a function *)

Lemma advice_formula meb tb fut :
  advice meb tb fut
  = if Qleb (meb - tb) 0 then 0
    else pymax 0
           (meb - tb
            - match Series_min fut with
              | Some lowest => pymax 0 (tb - lowest)
              | None => 0
              end).
Proof.
  unfold advice. rewrite advisor_run.
  destruct (Qleb (meb - tb) 0); reflexivity.
Qed.

Lemma advisor_value meb tb fut st :
  exists st',
    calculate_intelligent_transfer meb tb fut st
    = (st', inr (advice meb tb fut))
    /\ heap st' = heap st.
Proof.
  rewrite advice_formula, advisor_run.
  destruct (Qleb (meb - tb) 0); eexists; split; reflexivity.
Qed.

Lemma advice_nonneg meb tb fut : 0 <= advice meb tb fut.
Proof.
  rewrite advice_formula. destruct (Qleb (meb - tb) 0); [lra |].
  apply pymax_nonneg.
Qed.

Lemma advice_not_positive meb tb fut :
  Qltb 0 (advice meb tb fut) = false -> advice meb tb fut = 0.
Proof.
  rewrite advice_formula. destruct (Qleb (meb - tb) 0); [reflexivity |].
  generalize (meb - tb
              - match Series_min fut with
                | Some lowest => pymax 0 (tb - lowest)
                | None => 0
                end).
  intros y. unfold pymax.
  destruct (Qltb 0 y) eqn:E; [congruence | reflexivity].
Qed.

(** The look-ahead of the scan: up to thirty rows after the boundary. *)
Lemma look_ahead {A} (sim : list A) (i : nat) :
  iloc_slice sim (Z.of_nat (S i))
    (Z.of_nat (S i)
     + Z.min 30 (Z.of_nat (length sim) - Z.of_nat i - 1))%Z
  = take 30 (drop (S i) sim).
Proof.
  unfold iloc_slice. rewrite Nat2Z.id.
  replace (Z.to_nat _)
    with (Nat.min 30 (length (drop (S i) sim)))
    by (rewrite length_drop; lia).
  generalize (drop (S i) sim). intros l.
  destruct (Nat.le_gt_cases 30 (length l)) as [H | H].
  - rewrite Nat.min_l by exact H. reflexivity.
  - rewrite Nat.min_r by lia. rewrite firstn_all.
    symmetry. apply take_ge. lia.
Qed.

Lemma transfer_decision_cons tb p q rest :
  transfer_decision tb (p :: q :: rest)
  = if negb (Calendar.month (ts_date (date p))
             =? Calendar.month (ts_date (date q)))%Z
    then
      if Qltb 0 (advice (end_balance p) tb
                   (map end_balance (take 30 (q :: rest))))
      then Some (ts_date (date q),
                 advice (end_balance p) tb
                   (map end_balance (take 30 (q :: rest))))
      else transfer_decision tb (q :: rest)
    else transfer_decision tb (q :: rest).
Proof. reflexivity. Qed.

Section WithParsers.

Variable parse_numeric : string -> option Q.
Variable parse_datetime : string -> option Timestamp.

(** One pass through the scan loop at a position inside the
    result. *)
Lemma report_step_outcome sb tb sd wd (i : nat) (ledger : loc) sim rec
    st frame p q :
  heap st !! ledger = Some frame ->
  sim !! i = Some p ->
  sim !! S i = Some q ->
  exists st' r,
    report_step parse_numeric sb tb sd wd (Z.of_nat i)
      (ledger, sim, rec) st = (st', r)
    /\ heap st' !! ledger = Some frame
    /\ r = if negb (Calendar.month (ts_date (date p))
                    =? Calendar.month (ts_date (date q)))%Z
           then
             let amount :=
               advice (end_balance p) tb
                 (map end_balance (take 30 (drop (S i) sim))) in
             if Qltb 0 amount then
               match project parse_numeric
                       (frame ++ [surplus_transfer (ts_date (date q))
                                    amount])
                       tb sd (range wd) sb with
               | inl e => inl e
               | inr (ps, _) =>
                   inr (Break (S (length (heap st)), ps, amount))
               end
             else inr (Continue (ledger, sim, 0))
           else inr (Continue (ledger, sim, rec)).
Proof.
  intros Hl Hp Hq. unfold report_step. cbn [fst snd].
  replace (Z.of_nat i + 1)%Z with (Z.of_nat (S i)) by lia.
  unfold bind at 1. unfold lift at 1. rewrite (iloc_lookup _ _ _ Hp).
  unfold bind at 1. unfold lift at 1. rewrite (iloc_lookup _ _ _ Hq).
  destruct (negb _) eqn:Hmonth.
  2:{ exists st, (inr (Continue (ledger, sim, rec))). auto. }
  unfold bind at 1. unfold lift at 1.
  rewrite look_ahead. cbv zeta.
  set (amount := advice (end_balance p) tb
                   (map end_balance (take 30 (drop (S i) sim)))).
  unfold bind at 1.
  destruct (advisor_value (end_balance p) tb
              (map end_balance (take 30 (drop (S i) sim))) st)
    as (st1 & E1 & H1).
  rewrite E1. fold amount.
  assert (L1 : heap st1 !! ledger = Some frame)
    by (rewrite H1; exact Hl).
  destruct (Qltb 0 amount) eqn:Hpos.
  2:{ exists st1, (inr (Continue (ledger, sim, amount))).
      split; [reflexivity |]. split; [exact L1 |].
      unfold amount in *. rewrite (advice_not_positive _ _ _ Hpos).
      reflexivity. }
  unfold bind at 1. unfold alloc at 1.
  match goal with
  | |- context [bind (pd_concat _) _ ?s] => set (st2 := s)
  end.
  assert (L2 : heap st2 !! ledger = Some frame).
  { unfold st2. simpl. apply lookup_app_l_Some. exact L1. }
  unfold bind at 1. unfold pd_concat at 1.
  unfold bind at 1. cbn [load_all]. unfold bind at 1.
  rewrite (load_found _ _ _ L2).
  unfold bind at 1. unfold bind at 1.
  match goal with
  | |- context [load ?v st2] =>
      assert (Lv : heap st2 !! v
                   = Some [surplus_transfer (ts_date (date q)) amount])
        by apply lookup_new;
      rewrite (load_found _ _ _ Lv)
  end.
  cbv beta iota delta [bind alloc emit ret].
  match goal with
  | |- context [run_simulation_engine _ _ _ ?n _ _ ?s] =>
      set (st3 := s); set (new := n)
  end.
  assert (L3 : heap st3 !! new
               = Some (frame
                       ++ [surplus_transfer (ts_date (date q)) amount])).
  { unfold st3, new. simpl. apply lookup_new. }
  assert (L3' : heap st3 !! ledger = Some frame).
  { unfold st3. simpl. apply lookup_app_l_Some. exact L2. }
  assert (Hnew : new = S (length (heap st))).
  { unfold new, st2. simpl. rewrite length_app, H1. simpl. lia. }
  destruct (run_simulation_engine_run parse_numeric sb tb new sd wd st3
              _ L3) as (st4 & E4 & G4).
  rewrite E4.
  assert (L4 : heap st4 !! ledger = Some frame)
    by exact (grown_lookup _ _ _ _ _ G4 L3').
  destruct (project parse_numeric
              (frame ++ [surplus_transfer (ts_date (date q)) amount])
              tb sd (range wd) sb) as [e | [ps final]].
  - exists st4, (inl e). auto.
  - eexists st4, _. split; [reflexivity |]. split; [exact L4 |].
    rewrite Hnew. reflexivity.
Qed.

(** The scan loop from a position on: it ends as [transfer_decision]
    says. *)
Lemma scan_outcome sb tb sd wd (ledger : loc) sim frame :
  forall rest pre rec st,
  sim = pre ++ rest ->
  heap st !! ledger = Some frame ->
  exists st' r,
    foreach_break
      (map Z.of_nat (seq (length pre) (length rest - 1)))
      (report_step parse_numeric sb tb sd wd) (ledger, sim, rec) st
    = (st', r)
    /\ match transfer_decision tb rest with
       | None =>
           exists rec',
             r = inr (ledger, sim, rec') /\ (rec' = rec \/ rec' = 0)
       | Some (day, amount) =>
           match project parse_numeric
                   (frame ++ [surplus_transfer day amount])
                   tb sd (range wd) sb with
           | inl e => r = inl e
           | inr (ps, _) => exists new, r = inr (new, ps, amount)
           end
       end.
Proof.
  induction rest as [| p rest IH]; intros pre rec st Hsim Hl.
  { exists st, (inr (ledger, sim, rec)). split; [reflexivity |].
    exists rec. auto. }
  destruct rest as [| q rest'].
  { exists st, (inr (ledger, sim, rec)). split; [reflexivity |].
    exists rec. auto. }
  assert (Hp : sim !! length pre = Some p).
  { rewrite Hsim. apply list_lookup_middle. reflexivity. }
  assert (Hq : sim !! S (length pre) = Some q).
  { rewrite Hsim.
    replace (pre ++ p :: q :: rest') with ((pre ++ [p]) ++ q :: rest')
      by (rewrite <- app_assoc; reflexivity).
    apply list_lookup_middle. rewrite length_app. simpl. lia. }
  assert (Hdrop : drop (S (length pre)) sim = q :: rest').
  { rewrite Hsim.
    replace (pre ++ p :: q :: rest') with ((pre ++ [p]) ++ q :: rest')
      by (rewrite <- app_assoc; reflexivity).
    replace (S (length pre)) with (length (pre ++ [p]))
      by (rewrite length_app; simpl; lia).
    apply drop_app_length. }
  destruct (report_step_outcome sb tb sd wd (length pre) ledger sim rec
              st frame p q Hl Hp Hq) as (st1 & r1 & E1 & L1 & R1).
  replace (length (p :: q :: rest') - 1)%nat
    with (S (length (q :: rest') - 1)) by (simpl; lia).
  cbn [seq map foreach_break]. unfold bind at 1. rewrite E1.
  assert (Hsim' : sim = (pre ++ [p]) ++ q :: rest')
    by (rewrite <- app_assoc; exact Hsim).
  assert (Hlen : length (pre ++ [p]) = S (length pre))
    by (rewrite length_app; simpl; lia).
  rewrite transfer_decision_cons. rewrite Hdrop in R1.
  destruct (negb _) eqn:Hmonth.
  - cbv zeta in R1.
    destruct (Qltb 0 _) eqn:Hpos.
    + rewrite R1.
      destruct (project parse_numeric _ tb sd (range wd) sb)
        as [e | [ps final]].
      * exists st1, (inl e). auto.
      * eexists st1, _. split; [reflexivity |]. eexists; reflexivity.
    + rewrite R1.
      destruct (IH (pre ++ [p]) 0 st1 Hsim' L1) as (st2 & r2 & E2 & O2).
      rewrite Hlen in E2. exists st2, r2. split; [exact E2 |].
      destruct (transfer_decision tb (q :: rest')) as [[day amount] |];
        [exact O2 |].
      destruct O2 as (rec' & -> & Hrec). exists rec'.
      split; [reflexivity |]. destruct Hrec; auto.
  - rewrite R1.
    destruct (IH (pre ++ [p]) rec st1 Hsim' L1) as (st2 & r2 & E2 & O2).
    rewrite Hlen in E2. exists st2, r2. split; [exact E2 |]. exact O2.
Qed.

(** The ledger the orchestrator simulates sits in its private copy
    when the initial run starts. *)
Lemma normalise_run sb tb (l : loc) sd wd st frame :
  heap st !! l = Some frame ->
  match normalised parse_numeric parse_datetime frame with
  | inl e =>
      exists st',
        generate_simulation_report parse_numeric parse_datetime
          sb tb l sd wd st = (st', inl e)
        /\ trace st' = trace st
  | inr ledger =>
      exists st',
        heap st' !! length (heap st) = Some ledger
        /\ generate_simulation_report parse_numeric parse_datetime
             sb tb l sd wd st
           = (let* sim_results_df :=
                run_simulation_engine parse_numeric sb tb
                  (length (heap st)) sd wd in
              let* final :=
                foreach_break
                  (range (Z.of_nat (length sim_results_df) - 1))
                  (report_step parse_numeric sb tb sd wd)
                  (length (heap st), sim_results_df, 0) in
              ret (snd (fst final), snd final)) st'
  end.
Proof.
  intros Hl.
  set (ledger := length (heap st)).
  set (st1 := {| heap := heap st ++ [frame]; trace := trace st |}).
  assert (L1 : heap st1 !! ledger = Some frame) by apply lookup_new.
  pose (rest := fun transactions_df : loc =>
    let* frame := load transactions_df in
    let* col := lift (to_numeric parse_numeric (map tx_amount frame)) in
    let* _ := assign transactions_df (with_amount frame col) in
    let* sim_results_df :=
      run_simulation_engine parse_numeric sb tb transactions_df sd wd in
    let* final :=
      foreach_break (range (Z.of_nat (length sim_results_df) - 1))
        (report_step parse_numeric sb tb sd wd)
        (transactions_df, sim_results_df, 0) in
    ret (snd (fst final), snd final)).
  assert (Start :
    generate_simulation_report parse_numeric parse_datetime
      sb tb l sd wd st
    = (let* _ :=
         if negb (is_datetime64_any_dtype (map tx_date frame)) then
           let* col :=
             lift (to_datetime parse_datetime (map tx_date frame)) in
           assign ledger (with_date frame col)
         else ret tt in
       rest ledger) st1).
  { unfold generate_simulation_report. unfold bind at 1.
    rewrite (DataFrame_copy_found _ _ _ Hl). fold ledger st1.
    unfold bind at 1. rewrite (load_found _ _ _ L1). reflexivity. }
  rewrite Start. clear Start. unfold normalised.
  destruct (negb (is_datetime64_any_dtype (map tx_date frame))).
  - destruct (to_datetime parse_datetime (map tx_date frame))
      as [e | col].
    { exists st1. split; reflexivity. }
    destruct (to_numeric parse_numeric
                (map tx_amount (with_date frame col)))
      as [e | col2] eqn:Hn.
    + unfold bind at 1. unfold bind at 1. unfold lift at 1.
      unfold assign at 1.
      match goal with |- context [rest ledger ?s] => set (st2 := s) end.
      assert (L2 : heap st2 !! ledger = Some (with_date frame col)).
      { unfold st2, st1, ledger. simpl. rewrite insert_new.
        apply lookup_new. }
      unfold rest. unfold bind at 1. rewrite (load_found _ _ _ L2).
      unfold bind at 1. unfold lift at 1. rewrite Hn.
      exists st2. split; reflexivity.
    + unfold bind at 1. unfold bind at 1. unfold lift at 1.
      unfold assign at 1.
      match goal with |- context [rest ledger ?s] => set (st2 := s) end.
      assert (L2 : heap st2 !! ledger = Some (with_date frame col)).
      { unfold st2, st1, ledger. simpl. rewrite insert_new.
        apply lookup_new. }
      unfold rest. unfold bind at 1. rewrite (load_found _ _ _ L2).
      unfold bind at 1. unfold lift at 1. rewrite Hn.
      unfold bind at 1. unfold assign at 1.
      eexists. split; [| reflexivity].
      unfold st2, st1, ledger. simpl. rewrite !insert_new.
      apply lookup_new.
  - destruct (to_numeric parse_numeric (map tx_amount frame))
      as [e | col2] eqn:Hn.
    + unfold bind at 1. unfold ret at 1.
      unfold rest. unfold bind at 1. rewrite (load_found _ _ _ L1).
      unfold bind at 1. unfold lift at 1. rewrite Hn.
      exists st1. split; reflexivity.
    + unfold bind at 1. unfold ret at 1.
      unfold rest. unfold bind at 1. rewrite (load_found _ _ _ L1).
      unfold bind at 1. unfold lift at 1. rewrite Hn.
      unfold bind at 1. unfold assign at 1.
      eexists. split; [| reflexivity].
      unfold st1, ledger. simpl. rewrite insert_new.
      apply lookup_new.
Qed.

(** The outcome of a call of the orchestrator, as a function of the
    content of the caller's ledger. *)
Lemma report_outcome sb tb (l : loc) sd wd st frame :
  heap st !! l = Some frame ->
  snd (generate_simulation_report parse_numeric parse_datetime
         sb tb l sd wd st)
  = match normalised parse_numeric parse_datetime frame with
    | inl e => inl e
    | inr ledger =>
        match project parse_numeric ledger tb sd (range wd) sb with
        | inl e => inl e
        | inr (sim, _) =>
            match transfer_decision tb sim with
            | None => inr (sim, 0)
            | Some (day, amount) =>
                match project parse_numeric
                        (ledger ++ [surplus_transfer day amount])
                        tb sd (range wd) sb with
                | inl e => inl e
                | inr (sim', _) => inr (sim', amount)
                end
            end
        end
    end.
Proof.
  intros Hl.
  pose proof (normalise_run sb tb l sd wd st frame Hl) as N.
  destruct (normalised parse_numeric parse_datetime frame)
    as [e | ledger].
  { destruct N as (st' & -> & _). reflexivity. }
  destruct N as (st1 & L1 & ->).
  unfold bind at 1.
  destruct (run_simulation_engine_run parse_numeric sb tb
              (length (heap st)) sd wd st1 ledger L1)
    as (st2 & E2 & G2).
  rewrite E2.
  destruct (project parse_numeric ledger tb sd (range wd) sb)
    as [e | [sim final]]; [reflexivity |].
  pose proof (grown_lookup _ _ _ _ _ G2 L1) as L2.
  destruct (scan_outcome sb tb sd wd (length (heap st)) sim ledger
              sim [] 0 st2 eq_refl L2) as (st3 & r3 & E3 & O3).
  cbv beta iota. unfold range at 1.
  replace (Z.to_nat (Z.of_nat (length sim) - 1))
    with (length sim - 1)%nat by lia.
  unfold bind at 1.
  match goal with
  | |- context [foreach_break ?a ?b ?c ?d] =>
      assert (E3' : foreach_break a b c d = (st3, r3)) by exact E3;
      rewrite E3'
  end.
  destruct (transfer_decision tb sim) as [[day amount] |].
  - destruct (project parse_numeric
                (ledger ++ [surplus_transfer day amount])
                tb sd (range wd) sb) as [e | [sim' final']].
    + rewrite O3. reflexivity.
    + destruct O3 as (new & ->). reflexivity.
  - destruct O3 as (rec' & -> & [-> | ->]); reflexivity.
Qed.

End WithParsers.

End OutcomeFacts.

(* ===================================================================== *)
(** ** Ledgers: normalisation and added rows *)
(* ===================================================================== *)

Module LedgerFacts.
Import Numeric Pandas Simulator Reference Behaviour.
Import PandasFacts StoreFacts EngineFacts NumericFacts WindowFacts.
Import OutcomeFacts.

Local Open Scope Q_scope.

(** *** Column assignment *)

Lemma with_date_datetime (df : DataFrame) ts :
  is_datetime64_any_dtype (map tx_date (with_date df ts)) = true.
Proof.
  revert ts. induction df as [| r df IH]; intros [| t ts]; simpl;
    try reflexivity. apply IH.
Qed.

Lemma with_date_amounts (df : DataFrame) ts :
  length ts = length df ->
  map tx_amount (with_date df ts) = map tx_amount df.
Proof.
  revert ts. induction df as [| r df IH]; intros [| t ts] H;
    simpl in *; try discriminate; [reflexivity |].
  f_equal. apply IH. lia.
Qed.

Lemma with_amount_datetime (df : DataFrame) qs :
  is_datetime64_any_dtype (map tx_date df) = true ->
  is_datetime64_any_dtype (map tx_date (with_amount df qs)) = true.
Proof.
  revert qs. induction df as [| r df IH]; intros [| q qs] H; simpl in *;
    try reflexivity.
  apply andb_true_iff in H as [Hr H]. rewrite Hr. simpl.
  apply IH. exact H.
Qed.

Lemma to_datetime_stamps parse col :
  is_datetime64_any_dtype col = true ->
  exists ts, to_datetime parse col = inr ts.
Proof.
  induction col as [| c col IH]; simpl; intros H.
  - eexists; reflexivity.
  - apply andb_true_iff in H as [Hc H]. destruct c; [discriminate |].
    destruct (IH H) as [ts ->]. eexists; reflexivity.
Qed.

Lemma to_numeric_app parse (c1 c2 : list AmountCell) q1 q2 :
  to_numeric parse c1 = inr q1 -> to_numeric parse c2 = inr q2 ->
  to_numeric parse (c1 ++ c2) = inr (q1 ++ q2).
Proof.
  revert q1. induction c1 as [| c c1 IH]; intros q1 H1 H2; simpl in *.
  - injection H1 as <-. exact H2.
  - destruct (match c with ANum q => Some q | AStr s => parse s end)
      as [q |]; [| discriminate].
    destruct (to_numeric parse c1) as [e | qs]; [discriminate |].
    injection H1 as <-. rewrite (IH qs eq_refl H2). reflexivity.
Qed.


Section WithParsers.

Variable parse_numeric : string -> option Q.
Variable parse_datetime : string -> option Timestamp.

(** *** The ledger the orchestrator simulates *)

(** It holds timestamps and numbers only. *)
Lemma normalised_wellformed (frame ledger : DataFrame) :
  normalised parse_numeric parse_datetime frame = inr ledger ->
  is_datetime64_any_dtype (map tx_date ledger) = true
  /\ exists qs,
       forall parse, to_numeric parse (map tx_amount ledger) = inr qs.
Proof.
  unfold normalised.
  destruct (negb (is_datetime64_any_dtype (map tx_date frame))) eqn:Hd.
  - destruct (to_datetime parse_datetime (map tx_date frame))
      as [e | ts]; [discriminate |].
    destruct (to_numeric parse_numeric
                (map tx_amount (with_date frame ts)))
      as [e | qs] eqn:Hn; [discriminate |].
    intros [= <-]. split.
    + apply with_amount_datetime, with_date_datetime.
    + exists qs. intros parse. apply to_numeric_with_amount.
      rewrite (to_numeric_length _ _ _ Hn), length_map. reflexivity.
  - destruct (to_numeric parse_numeric (map tx_amount frame))
      as [e | qs] eqn:Hn; [discriminate |].
    intros [= <-]. apply negb_false_iff in Hd. split.
    + apply with_amount_datetime, Hd.
    + exists qs. intros parse. apply to_numeric_with_amount.
      rewrite (to_numeric_length _ _ _ Hn), length_map. reflexivity.
Qed.

(** Normalisation succeeds when the two conversions of the source
    do. *)
Lemma normalised_ok (frame : DataFrame) ts qs :
  to_datetime parse_datetime (map tx_date frame) = inr ts ->
  to_numeric parse_numeric (map tx_amount frame) = inr qs ->
  exists ledger,
    normalised parse_numeric parse_datetime frame = inr ledger.
Proof.
  intros Ht Hn. unfold normalised.
  destruct (negb (is_datetime64_any_dtype (map tx_date frame))).
  - rewrite Ht.
    rewrite with_date_amounts
      by (rewrite (to_datetime_length _ _ _ Ht), length_map;
          reflexivity).
    rewrite Hn. eexists; reflexivity.
  - rewrite Hn. eexists; reflexivity.
Qed.

(** Normalisation fails with [ValueError], and only on a cell that
    does not convert. *)
Lemma normalised_error (frame : DataFrame) e :
  normalised parse_numeric parse_datetime frame = inl e ->
  e = ValueError.
Proof.
  unfold normalised.
  destruct (negb (is_datetime64_any_dtype (map tx_date frame))).
  - destruct (to_datetime parse_datetime (map tx_date frame))
      as [e' | ts] eqn:Ht.
    + intros [= <-]. clear -Ht. revert e' Ht.
      induction (map tx_date frame) as [| c col IH]; intros e' Ht;
        simpl in Ht; [discriminate |].
      destruct (match c with DStamp t => Some t | DStr s => parse_datetime s end);
        [| injection Ht as <-; reflexivity].
      destruct (to_datetime parse_datetime col) as [e'' | ts];
        [| discriminate].
      injection Ht as <-. apply (IH e'' eq_refl).
    + destruct (to_numeric parse_numeric
                  (map tx_amount (with_date frame ts)))
        as [e' | qs] eqn:Hn; [| discriminate].
      intros [= <-]. exact (to_numeric_error _ _ _ Hn).
  - destruct (to_numeric parse_numeric (map tx_amount frame))
      as [e' | qs] eqn:Hn; [| discriminate].
    intros [= <-]. exact (to_numeric_error _ _ _ Hn).
Qed.

Lemma normalised_bad_amount (frame : DataFrame) r :
  In r frame -> cell_value parse_numeric (tx_amount r) = None ->
  normalised parse_numeric parse_datetime frame = inl ValueError.
Proof.
  intros Hin Hr.
  pose proof (to_numeric_bad_row parse_numeric frame r Hin Hr) as Hn.
  destruct (normalised parse_numeric parse_datetime frame)
    as [e | ledger] eqn:N.
  { rewrite (normalised_error _ _ N). reflexivity. }
  exfalso. unfold normalised in N.
  destruct (negb (is_datetime64_any_dtype (map tx_date frame))).
  - destruct (to_datetime parse_datetime (map tx_date frame))
      as [e | ts] eqn:Ht; [discriminate |].
    rewrite with_date_amounts in N
      by (rewrite (to_datetime_length _ _ _ Ht), length_map;
          reflexivity).
    rewrite Hn in N. discriminate.
  - rewrite Hn in N. discriminate.
Qed.

(** The normalised ledger, and the ledger with a surplus transfer
    added, are projected without error. *)
Lemma normalised_projects (frame ledger : DataFrame) tb sd offsets bal :
  normalised parse_numeric parse_datetime frame = inr ledger ->
  exists sim final,
    project parse_numeric ledger tb sd offsets bal = inr (sim, final).
Proof.
  intros N. destruct (normalised_wellformed _ _ N) as (Hd & qs & Hn).
  exact (project_total parse_numeric ledger tb sd offsets qs Hd
           (Hn parse_numeric) bal).
Qed.

Lemma transfer_projects (frame ledger : DataFrame) tb sd offsets bal
    day amount :
  normalised parse_numeric parse_datetime frame = inr ledger ->
  exists sim final,
    project parse_numeric (ledger ++ [surplus_transfer day amount])
      tb sd offsets bal = inr (sim, final).
Proof.
  intros N. destruct (normalised_wellformed _ _ N) as (Hd & qs & Hn).
  apply (project_total parse_numeric _ tb sd offsets (qs ++ [- amount])).
  - rewrite datetime_app, Hd. reflexivity.
  - rewrite map_app. apply to_numeric_app; [apply Hn | reflexivity].
Qed.

(** *** The rows of a projection and their days *)

Lemma project_date (frame : DataFrame) tb sd offsets bal ps final
    (i : nat) p k :
  project parse_numeric frame tb sd offsets bal = inr (ps, final) ->
  ps !! i = Some p -> offsets !! i = Some k ->
  date p = Timestamp_of_date (Calendar.add_days sd k).
Proof.
  intros P Hp Hk.
  destruct (project_lookup _ _ _ _ _ _ _ _ _ _ P Hp)
    as (k' & totals & b & Hk' & _ & ->).
  rewrite Hk in Hk'. injection Hk' as <-. reflexivity.
Qed.

Lemma project_window_date (frame : DataFrame) tb sd wd bal ps final
    (i : nat) p :
  project parse_numeric frame tb sd (range wd) bal = inr (ps, final) ->
  ps !! i = Some p ->
  (Z.of_nat i < wd)%Z
  /\ date p = Timestamp_of_date (Calendar.add_days sd (Z.of_nat i)).
Proof.
  intros P Hp.
  pose proof (project_length _ _ _ _ _ _ _ _ P) as Hlen.
  rewrite range_length in Hlen.
  pose proof (lookup_lt_Some _ _ _ Hp) as Hi.
  split; [lia |].
  apply (project_date _ _ _ _ _ _ _ _ _ _ P Hp).
  apply range_lookup. lia.
Qed.

(** *** A row added to the ledger *)




End WithParsers.

(** *** The decision of the scan *)

Lemma transfer_decision_none tb sim :
  (forall (i : nat) p q,
     sim !! i = Some p -> sim !! S i = Some q ->
     Calendar.month (ts_date (date p)) = Calendar.month (ts_date (date q))) ->
  transfer_decision tb sim = None.
Proof.
  induction sim as [| p sim IH]; intros H; [reflexivity |].
  destruct sim as [| q rest]; [reflexivity |].
  rewrite transfer_decision_cons.
  rewrite (H 0%nat p q eq_refl eq_refl), Z.eqb_refl. simpl negb.
  apply IH. intros i x y Hx Hy. exact (H (S i) x y Hx Hy).
Qed.

(** A decision to transfer names a month boundary of the result, the
    day after it and the positive advice computed there; at every
    boundary before it the advice was not positive. *)
Lemma transfer_decision_some tb sim day amount :
  transfer_decision tb sim = Some (day, amount) ->
  exists (i : nat) p q,
    sim !! i = Some p /\ sim !! S i = Some q
    /\ Calendar.month (ts_date (date p))
       <> Calendar.month (ts_date (date q))
    /\ day = ts_date (date q)
    /\ amount
       = advice (end_balance p) tb
           (map end_balance (take 30 (drop (S i) sim)))
    /\ 0 < amount
    /\ forall (i' : nat) p' q',
         (i' < i)%nat ->
         sim !! i' = Some p' -> sim !! S i' = Some q' ->
         Calendar.month (ts_date (date p'))
         <> Calendar.month (ts_date (date q')) ->
         advice (end_balance p') tb
           (map end_balance (take 30 (drop (S i') sim))) = 0.
Proof.
  induction sim as [| p sim IH]; [discriminate |].
  destruct sim as [| q rest]; [discriminate |].
  rewrite transfer_decision_cons.
  destruct (negb _) eqn:Hm.
  - destruct (Qltb 0 _) eqn:Hpos.
    + intros [= <- <-]. exists 0%nat, p, q.
      split; [reflexivity |]. split; [reflexivity |].
      split; [apply negb_true_iff, Z.eqb_neq in Hm; exact Hm |].
      split; [reflexivity |]. split; [reflexivity |].
      split; [apply Qltb_lt; exact Hpos |].
      intros i' p' q' Hi'. lia.
    + intros H. destruct (IH H)
        as (i & x & y & Hx & Hy & Hxy & Hday & Ham & Hgt & Hbefore).
      exists (S i), x, y. repeat (split; [assumption |]).
      intros [| i'] p' q' Hi' Hp' Hq' Hpq.
      * simpl in Hp', Hq'. injection Hp' as <-. injection Hq' as <-.
        apply advice_not_positive. exact Hpos.
      * apply (Hbefore i' p' q'); [lia | exact Hp' | exact Hq' | exact Hpq].
  - intros H. destruct (IH H)
      as (i & x & y & Hx & Hy & Hxy & Hday & Ham & Hgt & Hbefore).
    exists (S i), x, y. repeat (split; [assumption |]).
    intros [| i'] p' q' Hi' Hp' Hq' Hpq.
    + simpl in Hp', Hq'. injection Hp' as <-. injection Hq' as <-.
      apply negb_false_iff, Z.eqb_eq in Hm. contradiction.
    + apply (Hbefore i' p' q'); [lia | exact Hp' | exact Hq' | exact Hpq].
Qed.

End LedgerFacts.

(* ===================================================================== *)
(** ** Further properties of [calculate_intelligent_transfer] *)
(* ===================================================================== *)

Module AdvisorProperties.
Import Numeric Pandas Simulator Reference Behaviour.
Import NumericFacts ReportFacts OutcomeFacts.

Local Open Scope Q_scope.

Lemma pymax_mono a b : a <= b -> pymax 0 a <= pymax 0 b.
Proof.
  intros H. unfold pymax.
  destruct (Qltb 0 a) eqn:Ea, (Qltb 0 b) eqn:Eb;
    try apply Qltb_lt in Ea; try apply Qltb_ge in Ea;
    try apply Qltb_lt in Eb; try apply Qltb_ge in Eb; lra.
Qed.

Lemma pymax_le_l a b : 0 <= b -> pymax 0 (a - b) <= pymax 0 a.
Proof. intros H. apply pymax_mono. lra. Qed.

Lemma min_from_mono m m' s s' :
  m <= m' -> Forall2 Qle s s' -> min_from m s <= min_from m' s'.
Proof.
  intros Hm Hs. revert m m' Hm.
  induction Hs as [| x x' s s' Hx Hs IH]; intros m m' Hm; simpl;
    [exact Hm |].
  apply IH.
  destruct (Qltb x m) eqn:E, (Qltb x' m') eqn:E';
    try apply Qltb_lt in E; try apply Qltb_ge in E;
    try apply Qltb_lt in E'; try apply Qltb_ge in E'; lra.
Qed.

(** The part of the surplus held back for a dip of the future
    balances. *)
Lemma holdback_nonneg tb fut :
  0 <= match Series_min fut with
       | Some lowest => pymax 0 (tb - lowest)
       | None => 0
       end.
Proof. destruct (Series_min fut); [apply pymax_nonneg | lra]. Qed.

Lemma holdback_antitone tb fut fut' :
  Forall2 Qle fut fut' ->
  match Series_min fut' with
  | Some lowest => pymax 0 (tb - lowest)
  | None => 0
  end
  <= match Series_min fut with
     | Some lowest => pymax 0 (tb - lowest)
     | None => 0
     end.
Proof.
  intros [| x x' s s' Hx Hs]; simpl; [lra |].
  apply pymax_mono.
  pose proof (min_from_mono x x' s s' Hx Hs). lra.
Qed.

(** X8: the recommendation is bounded by the surplus.  For every
    input, the empty series included, the advisor returns (it never
    raises) an amount that is not negative and not larger than the
    surplus [month_end_balance - target_balance], taken as [0] when
    there is none. *)
Theorem transfer_within_surplus meb tb (fut : list Q) st :
  exists st' amount,
    calculate_intelligent_transfer meb tb fut st = (st', inr amount)
    /\ 0 <= amount
    /\ amount <= Qmax 0 (meb - tb).
Proof.
  destruct (advisor_value meb tb fut st) as (st' & E & _).
  exists st', (advice meb tb fut). split; [exact E |].
  split; [apply advice_nonneg |].
  rewrite <- pymax_Qmax, advice_formula.
  destruct (Qleb (meb - tb) 0); [apply pymax_nonneg |].
  apply pymax_le_l, holdback_nonneg.
Qed.

(** X9: the recommendation is monotone.  A higher month-end balance
    and future balances that are day by day at least as high never
    lower the amount the advisor returns. *)
Theorem transfer_monotone meb meb' tb (fut fut' : list Q) st st' :
  meb <= meb' ->
  Forall2 Qle fut fut' ->
  exists s1 amount s2 amount',
    calculate_intelligent_transfer meb tb fut st = (s1, inr amount)
    /\ calculate_intelligent_transfer meb' tb fut' st' = (s2, inr amount')
    /\ amount <= amount'.
Proof.
  intros Hm Hf.
  destruct (advisor_value meb tb fut st) as (s1 & E1 & _).
  destruct (advisor_value meb' tb fut' st') as (s2 & E2 & _).
  exists s1, (advice meb tb fut), s2, (advice meb' tb fut').
  split; [exact E1 |]. split; [exact E2 |].
  pose proof (advice_nonneg meb' tb fut') as Hn.
  rewrite advice_formula. rewrite advice_formula in Hn |- *.
  destruct (Qleb (meb - tb) 0) eqn:Es; [exact Hn |].
  apply Qleb_gt in Es.
  destruct (Qleb (meb' - tb) 0) eqn:Es'.
  { apply Qleb_le in Es'. lra. }
  apply pymax_mono.
  pose proof (holdback_antitone tb fut fut' Hf). lra.
Qed.

End AdvisorProperties.

(* ===================================================================== *)
(** ** Further properties of [generate_simulation_report] and of the
       engine it drives *)
(* ===================================================================== *)

Module ReportProperties.
Import Numeric Pandas Simulator Reference Behaviour.
Import PandasFacts StoreFacts EngineFacts NumericFacts WindowFacts.
Import ReportFacts OutcomeFacts LedgerFacts.

Local Open Scope Q_scope.

Section WithParsers.

Variable parse_numeric : string -> option Q.
Variable parse_datetime : string -> option Timestamp.

Lemma engine_result_project sb tb ledger sd wd sim final :
  project parse_numeric ledger tb sd (range wd) sb = inr (sim, final) ->
  engine_result parse_numeric sb tb ledger sd wd sim.
Proof.
  intros P st0 l0 Hl. rewrite (engine_outcome _ _ _ _ _ _ _ _ Hl), P.
  reflexivity.
Qed.

(** X10: what the orchestrator returns.  Once the ledger is
    normalised (dates and amounts converted), the call returns the
    engine's projection of it with recommendation [0] if the scan
    finds no month boundary with a positive advice; otherwise it
    returns the advice of the first boundary where it is positive
    together with the engine's projection of the ledger extended by
    one Surplus Transfer row, dated the day after that boundary and
    of amount minus the advice. *)
Theorem report_follows_decision sb tb (l : loc) sd wd st frame ledger :
  heap st !! l = Some frame ->
  normalised parse_numeric parse_datetime frame = inr ledger ->
  exists sim,
    engine_result parse_numeric sb tb ledger sd wd sim
    /\ match transfer_decision tb sim with
       | None =>
           snd (generate_simulation_report parse_numeric parse_datetime
                  sb tb l sd wd st) = inr (sim, 0)
       | Some (day, amount) =>
           exists sim',
             engine_result parse_numeric sb tb
               (ledger ++ [surplus_transfer day amount]) sd wd sim'
             /\ snd (generate_simulation_report parse_numeric
                       parse_datetime sb tb l sd wd st)
                = inr (sim', amount)
       end.
Proof.
  intros Hl N.
  rewrite (report_outcome parse_numeric parse_datetime sb tb l sd wd st
             frame Hl), N.
  destruct (normalised_projects parse_numeric parse_datetime frame
              ledger tb sd (range wd) sb N) as (sim & final & P).
  rewrite P. exists sim.
  split; [exact (engine_result_project _ _ _ _ _ _ _ P) |].
  destruct (transfer_decision tb sim) as [[day amount] |];
    [| reflexivity].
  destruct (transfer_projects parse_numeric parse_datetime frame ledger
              tb sd (range wd) sb day amount N) as (sim' & final' & P').
  rewrite P'. exists sim'.
  split; [exact (engine_result_project _ _ _ _ _ _ _ P') | reflexivity].
Qed.

(** X11: the orchestrator converts the whole amount column before it
    simulates.  If the amount of any row of the ledger does not
    convert, wherever the row is dated and whatever the window, the
    call raises [ValueError] and no run of the engine has taken
    place. *)
Theorem report_rejects_unconvertible_amount sb tb (l : loc) sd wd st
    frame r :
  heap st !! l = Some frame ->
  In r frame ->
  cell_value parse_numeric (tx_amount r) = None ->
  exists st',
    generate_simulation_report parse_numeric parse_datetime
      sb tb l sd wd st = (st', inl ValueError)
    /\ trace st' = trace st.
Proof.
  intros Hl Hin Hr.
  pose proof (normalise_run parse_numeric parse_datetime sb tb l sd wd
                st frame Hl) as N.
  rewrite (normalised_bad_amount parse_numeric parse_datetime frame r
             Hin Hr) in N.
  exact N.
Qed.

(** X12: the orchestrator returns whenever the ledger converts.  If
    the date column and the amount column of the ledger convert, the
    call returns, for every window; the result has one row per day
    of the window, row [i] dated [start_date + i], and the
    recommendation is not negative. *)
Theorem report_returns sb tb (l : loc) sd wd st frame ts qs :
  heap st !! l = Some frame ->
  to_datetime parse_datetime (map tx_date frame) = inr ts ->
  to_numeric parse_numeric (map tx_amount frame) = inr qs ->
  exists sim amount,
    snd (generate_simulation_report parse_numeric parse_datetime
           sb tb l sd wd st) = inr (sim, amount)
    /\ length sim = Z.to_nat wd
    /\ 0 <= amount
    /\ forall (i : nat) p,
         sim !! i = Some p ->
         date p
         = Timestamp_of_date (Calendar.add_days sd (Z.of_nat i)).
Proof.
  intros Hl Ht Hn.
  destruct (normalised_ok parse_numeric parse_datetime frame ts qs Ht Hn)
    as [ledger N].
  rewrite (report_outcome parse_numeric parse_datetime sb tb l sd wd st
             frame Hl), N.
  destruct (normalised_projects parse_numeric parse_datetime frame
              ledger tb sd (range wd) sb N) as (sim & final & P).
  rewrite P.
  destruct (transfer_decision tb sim) as [[day amount] |] eqn:D.
  - destruct (transfer_projects parse_numeric parse_datetime frame
                ledger tb sd (range wd) sb day amount N)
      as (sim' & final' & P').
    rewrite P'. exists sim', amount. split; [reflexivity |].
    split; [rewrite (project_length _ _ _ _ _ _ _ _ P');
            apply range_length |].
    split.
    + destruct (transfer_decision_some _ _ _ _ D)
        as (i & p & q & _ & _ & _ & _ & _ & Hpos & _). lra.
    + intros i p Hp.
      exact (proj2 (project_window_date _ _ _ _ _ _ _ _ _ _ P' Hp)).
  - exists sim, 0. split; [reflexivity |].
    split; [rewrite (project_length _ _ _ _ _ _ _ _ P);
            apply range_length |].
    split; [lra |].
    intros i p Hp.
    exact (proj2 (project_window_date _ _ _ _ _ _ _ _ _ _ P Hp)).
Qed.

(** X13: a window inside one calendar month.  If no two consecutive
    days of the window lie in different months, the orchestrator
    returns the engine's projection of the normalised ledger and
    the recommendation [0]: nothing is injected. *)
Theorem report_without_month_end sb tb (l : loc) sd wd st frame ledger :
  heap st !! l = Some frame ->
  normalised parse_numeric parse_datetime frame = inr ledger ->
  (forall k, (0 <= k < wd - 1)%Z ->
     Calendar.month (Calendar.add_days sd k)
     = Calendar.month (Calendar.add_days sd (k + 1))) ->
  exists sim,
    engine_result parse_numeric sb tb ledger sd wd sim
    /\ snd (generate_simulation_report parse_numeric parse_datetime
              sb tb l sd wd st) = inr (sim, 0).
Proof.
  intros Hl N Hmonth.
  rewrite (report_outcome parse_numeric parse_datetime sb tb l sd wd st
             frame Hl), N.
  destruct (normalised_projects parse_numeric parse_datetime frame
              ledger tb sd (range wd) sb N) as (sim & final & P).
  rewrite P. exists sim.
  split; [exact (engine_result_project _ _ _ _ _ _ _ P) |].
  rewrite (transfer_decision_none tb sim); [reflexivity |].
  intros i p q Hp Hq.
  destruct (project_window_date _ _ _ _ _ _ _ _ _ _ P Hp) as [_ ->].
  destruct (project_window_date _ _ _ _ _ _ _ _ _ _ P Hq) as [Hi ->].
  simpl ts_date.
  replace (Z.of_nat (S i)) with (Z.of_nat i + 1)%Z by lia.
  apply Hmonth. lia.
Qed.



End WithParsers.

End ReportProperties.

(* ===================================================================== *)
(** ** The further properties at work on sample ledgers *)
(* ===================================================================== *)

Module Illustrations.
Import Numeric Pandas Simulator Reference Behaviour Samples.
Import EngineProperties AdvisorProperties ReportProperties.

Local Open Scope Q_scope.

Lemma sample_dates_are_timestamps :
  is_datetime64_any_dtype (map tx_date sample_sim_transactions) = true.
Proof. reflexivity. Defined.

Lemma sample_normalised :
  normalised parse_decimal parse_no_date sample_sim_transactions
  = inr sample_ledger.
Proof. vm_compute. reflexivity. Defined.


(** The report over forty days recommends the whole surplus of the
    end of January, 1150. *)
Example sample_report_recommends : sample_report_amount == 1150.
Proof. vm_compute. reflexivity. Qed.

Lemma engine_ignores_rows_outside_window_witness :
  snd (run_simulation_engine parse_decimal 2000 1000 0%nat
         (Calendar.mkdate 2024 1 1) 5 (initial sample_sim_transactions))
  = snd (run_simulation_engine parse_decimal 2000 1000 0%nat
           (Calendar.mkdate 2024 1 1) 5
           (initial (List.filter
                       (in_window (Calendar.mkdate 2024 1 1) 5)
                       sample_sim_transactions))).
Proof.
  exact (engine_ignores_rows_outside_window parse_decimal 2000 1000
           0%nat 0%nat (Calendar.mkdate 2024 1 1) 5
           (initial sample_sim_transactions)
           (initial (List.filter
                       (in_window (Calendar.mkdate 2024 1 1) 5)
                       sample_sim_transactions))
           sample_sim_transactions
           Scenarios.sample_ledger_found sample_dates_are_timestamps
           eq_refl).
Defined.

(** The ledger with the bad amount is projected over ten days of
    January 2024: the row that does not convert is dated in 2030. *)
Lemma engine_converts_window_amounts_only_witness :
  exists res,
    snd (run_simulation_engine parse_decimal 2000 1000 0%nat
           (Calendar.mkdate 2024 1 1) 10 (initial ledger_with_bad_amount))
    = inr res.
Proof.
  apply (proj1 (engine_converts_window_amounts_only parse_decimal 2000
                  1000 0%nat (Calendar.mkdate 2024 1 1) 10
                  (initial ledger_with_bad_amount) ledger_with_bad_amount
                  eq_refl eq_refl)).
  intros r [<- | [<- | [<- | [<- | [<- | []]]]]] Hw;
    vm_compute in Hw; vm_compute; discriminate.
Defined.


(** Five days of March 2024: the ledger of the tests has nothing
    there. *)
Lemma engine_quiet_window_witness :
  exists st' res,
    run_simulation_engine parse_decimal 2000 1000 0%nat
      (Calendar.mkdate 2024 3 1) 5 (initial sample_sim_transactions)
    = (st', inr res)
    /\ length res = Z.to_nat 5
    /\ forall (i : nat) p,
         res !! i = Some p ->
         net_change p = 0
         /\ start_balance p == 2000
         /\ end_balance p == 2000
         /\ alert_type p = (if Qltb 2000 1000 then BELOW_TARGET else OK)
         /\ transactions_summary p
            = (if Qltb 2000 1000
               then add_funds_note (1000 - end_balance p)
               else ""%string).
Proof.
  apply (engine_quiet_window parse_decimal 2000 1000 0%nat
           (Calendar.mkdate 2024 3 1) 5 (initial sample_sim_transactions)
           sample_sim_transactions Scenarios.sample_ledger_found
           sample_dates_are_timestamps).
  intros r [<- | [<- | [<- | [<- | []]]]]; vm_compute; reflexivity.
Defined.

Lemma engine_resumes_witness :
  snd (run_simulation_engine parse_decimal 2000 1000 0%nat
         (Calendar.mkdate 2024 1 1) (10 + 5)
         (initial sample_sim_transactions))
  = match snd (run_simulation_engine parse_decimal
                 (closing_balance 2000 sample_rows) 1000 0%nat
                 (Calendar.add_days (Calendar.mkdate 2024 1 1) 10) 5
                 (initial sample_sim_transactions)) with
    | inr res2 => inr (sample_rows ++ res2)
    | inl e => inl e
    end.
Proof.
  exact (engine_resumes parse_decimal 2000 1000 0%nat 0%nat
           (Calendar.mkdate 2024 1 1) 10 5
           (initial sample_sim_transactions) sample_final
           (initial sample_sim_transactions) sample_rows
           sample_sim_transactions
           ltac:(lia) ltac:(lia)
           Scenarios.sample_ledger_found Scenarios.sample_ledger_found
           Scenarios.sample_engine_returns).
Defined.

Lemma engine_balances_independent_of_target_witness :
  match snd (run_simulation_engine parse_decimal 2000 1000 0%nat
               (Calendar.mkdate 2024 1 1) 10
               (initial sample_sim_transactions)),
        snd (run_simulation_engine parse_decimal 2000 2500 0%nat
               (Calendar.mkdate 2024 1 1) 10
               (initial sample_sim_transactions)) with
  | inr res, inr res' => map balances res = map balances res'
  | inl e, inl e' => e = e'
  | _, _ => False
  end.
Proof.
  exact (engine_balances_independent_of_target parse_decimal 2000 1000
           2500 0%nat (Calendar.mkdate 2024 1 1) 10
           (initial sample_sim_transactions) sample_sim_transactions
           Scenarios.sample_ledger_found).
Defined.

Lemma engine_needs_datetime_column_witness :
  snd (run_simulation_engine parse_decimal 2000 1000 0%nat
         (Calendar.mkdate 2024 1 1) 3 (initial raw_ledger))
  = inl AttributeError.
Proof.
  exact (engine_needs_datetime_column parse_decimal 2000 1000 0%nat
           (Calendar.mkdate 2024 1 1) 3 (initial raw_ledger) raw_ledger
           ltac:(lia) eq_refl eq_refl).
Defined.

Lemma transfer_monotone_witness :
  exists s1 amount s2 amount',
    calculate_intelligent_transfer 3000 2500 [2000; 1500] (initial [])
    = (s1, inr amount)
    /\ calculate_intelligent_transfer 5000 2500 [2500; 1500] (initial [])
       = (s2, inr amount')
    /\ amount <= amount'.
Proof.
  apply transfer_monotone.
  - vm_compute. discriminate.
  - repeat constructor; vm_compute; discriminate.
Defined.

Lemma report_follows_decision_witness :
  exists sim,
    engine_result parse_decimal 2000 1000 sample_ledger
      (Calendar.mkdate 2024 1 1) 40 sim
    /\ match transfer_decision 1000 sim with
       | None =>
           snd (generate_simulation_report parse_decimal parse_no_date
                  2000 1000 0%nat (Calendar.mkdate 2024 1 1) 40
                  (initial sample_sim_transactions)) = inr (sim, 0)
       | Some (day, amount) =>
           exists sim',
             engine_result parse_decimal 2000 1000
               (sample_ledger ++ [surplus_transfer day amount])
               (Calendar.mkdate 2024 1 1) 40 sim'
             /\ snd (generate_simulation_report parse_decimal
                       parse_no_date 2000 1000 0%nat
                       (Calendar.mkdate 2024 1 1) 40
                       (initial sample_sim_transactions))
                = inr (sim', amount)
       end.
Proof.
  exact (report_follows_decision parse_decimal parse_no_date 2000 1000
           0%nat (Calendar.mkdate 2024 1 1) 40
           (initial sample_sim_transactions) sample_sim_transactions
           sample_ledger Scenarios.sample_ledger_found sample_normalised).
Defined.

(** Not even an empty window gets a ledger with a bad amount past the
    orchestrator. *)
Lemma report_rejects_unconvertible_amount_witness :
  exists st',
    generate_simulation_report parse_decimal parse_no_date 2000 1000
      0%nat (Calendar.mkdate 2024 1 1) 0 (initial ledger_with_bad_amount)
    = (st', inl ValueError)
    /\ trace st' = trace (initial ledger_with_bad_amount).
Proof.
  apply (report_rejects_unconvertible_amount parse_decimal parse_no_date
           2000 1000 0%nat (Calendar.mkdate 2024 1 1) 0
           (initial ledger_with_bad_amount) ledger_with_bad_amount bonus).
  - reflexivity.
  - unfold ledger_with_bad_amount. apply in_or_app. right. left.
    reflexivity.
  - reflexivity.
Defined.

Lemma report_returns_witness :
  exists sim amount,
    snd (generate_simulation_report parse_decimal parse_no_date 2000 1000
           0%nat (Calendar.mkdate 2024 1 1) 40
           (initial sample_sim_transactions)) = inr (sim, amount)
    /\ length sim = Z.to_nat 40
    /\ 0 <= amount
    /\ forall (i : nat) p,
         sim !! i = Some p ->
         date p
         = Timestamp_of_date
             (Calendar.add_days (Calendar.mkdate 2024 1 1) (Z.of_nat i)).
Proof.
  destruct (to_datetime parse_no_date
              (map tx_date sample_sim_transactions)) as [e | ts] eqn:Ht;
    [exfalso; vm_compute in Ht; discriminate Ht |].
  destruct (to_numeric parse_decimal
              (map tx_amount sample_sim_transactions)) as [e | qs] eqn:Hn;
    [exfalso; vm_compute in Hn; discriminate Hn |].
  exact (report_returns parse_decimal parse_no_date 2000 1000 0%nat
           (Calendar.mkdate 2024 1 1) 40 (initial sample_sim_transactions)
           sample_sim_transactions ts qs Scenarios.sample_ledger_found
           Ht Hn).
Defined.

(** Ten days from 2024-01-01 stay within January. *)
Lemma report_without_month_end_witness :
  exists sim,
    engine_result parse_decimal 2000 1000 sample_ledger
      (Calendar.mkdate 2024 1 1) 10 sim
    /\ snd (generate_simulation_report parse_decimal parse_no_date
              2000 1000 0%nat (Calendar.mkdate 2024 1 1) 10
              (initial sample_sim_transactions)) = inr (sim, 0).
Proof.
  apply (report_without_month_end parse_decimal parse_no_date 2000 1000
           0%nat (Calendar.mkdate 2024 1 1) 10
           (initial sample_sim_transactions) sample_sim_transactions
           sample_ledger Scenarios.sample_ledger_found sample_normalised).
  intros k Hk.
  assert (H : (k = 0 \/ k = 1 \/ k = 2 \/ k = 3 \/ k = 4 \/ k = 5
               \/ k = 6 \/ k = 7 \/ k = 8)%Z) by lia.
  destruct H as [-> | [-> | [-> | [-> | [-> | [-> | [-> | [-> | ->]]]]]]]];
    reflexivity.
Defined.



End Illustrations.
